(** * PSCounts: the shift aggregation and reporting engine

    A shallow embedding of [PSCounts.py] (the single-file shift logger):
    the JSON store, the import of a workbook, the per-quarter sheet
    writer, the EoS resolver, the Shift Changes summary, the delta
    engine and the submission workflow, followed by the properties
    proved about them.

    Conventions of the embedding.
    - A Python [dict] is an association list in insertion order
      ([dict_set] replaces in place or appends, as assignment does).
    - A pandas DataFrame is a list of column labels and a list of rows,
      each row a map from labels to cells.  An empty cell is [VNaN].
    - Counts are integers: a numeric cell is a [VInt], whether pandas
      holds it as int64 or as an integral float64.
    - The workbook on disk is a dict from sheet names to sheets, a
      sheet being its header row and the rows of cells below it; the
      JSON document is the dataset [json.load] returns for it.  Input
      and output failures of the operating system (locked file, full
      disk) are not modelled.
    - Global state ([shift_data], the JSON file, the workbook, what is
      shown to the user) is the [World]; the functions that touch it
      are computations in the monad [M], which also carries the
      exception raised, if any.
    - What depends on the Python runtime and not on the program (the
      parsing of a float from a string, the printing of a float, the
      iteration order of a set) is a field of [PyRuntime]. *)

From Stdlib Require Import ZArith List String Ascii Bool Lia.
From Stdlib Require Import Permutation Sorted DecimalString DecimalPos.
From Stdlib Require Import PrimFloat FloatOps SpecFloat FloatAxioms.
Import ListNotations.

Local Open Scope string_scope.
Local Open Scope Z_scope.
Local Open Scope list_scope.

Set Implicit Arguments.

(** ** Python values *)

(** The values that occur in records, in spreadsheet cells and in the
    JSON document. *)
Inductive value : Type :=
| VNone                 (* None, JSON null *)
| VNaN                  (* float('nan'): an empty cell as pandas reads it *)
| VInt (n : Z)          (* a count *)
| VStr (s : string).    (* text *)

(** Hashable keys: what a dict can be indexed by. *)
Class Key (K : Type) : Type := { key_eqb : K -> K -> bool }.

Definition value_eqb (a b : value) : bool :=
  match a, b with
  | VNone, VNone => true
  | VNaN, VNaN => true
  | VInt x, VInt y => x =? y
  | VStr s, VStr t => String.eqb s t
  | _, _ => false
  end.

#[export] Instance string_Key : Key string :=
  {| key_eqb := String.eqb |}.

#[export] Instance value_Key : Key value :=
  {| key_eqb := value_eqb |}.

(** ** Dictionaries *)

Definition dict (K V : Type) : Type := list (K * V).

Section Dict.
Context {K V : Type} `{Key K}.

(** [d.get(k)] *)
Fixpoint dict_get (k : K) (d : dict K V) : option V :=
  match d with
  | [] => None
  | (k', v) :: d' => if key_eqb k k' then Some v else dict_get k d'
  end.

(** [k in d] *)
Definition dict_mem (k : K) (d : dict K V) : bool :=
  match dict_get k d with Some _ => true | None => false end.

(** [d[k] = v]: an existing key keeps its place, a new one goes last. *)
Fixpoint dict_set (k : K) (v : V) (d : dict K V) : dict K V :=
  match d with
  | [] => [(k, v)]
  | (k', v') :: d' =>
      if key_eqb k k' then (k', v) :: d' else (k', v') :: dict_set k v d'
  end.

(** [d.keys()] and [d.items()] in iteration order. *)
Definition dict_keys (d : dict K V) : list K := map fst d.

End Dict.

(** [x in l] for a list. *)
Definition list_mem {K : Type} `{Key K} (x : K) (l : list K) : bool :=
  existsb (key_eqb x) l.

(** ** Strings as Python handles them *)

(** [c.isspace()] for an ASCII character. *)
Definition is_space (c : ascii) : bool :=
  let n := N_of_ascii c in
  ((9 <=? n) && (n <=? 13))%N || ((28 <=? n) && (n <=? 32))%N.

Fixpoint lstrip (s : string) : string :=
  match s with
  | String c s' => if is_space c then lstrip s' else s
  | EmptyString => EmptyString
  end.

Fixpoint rstrip (s : string) : string :=
  match s with
  | String c s' =>
      match rstrip s' with
      | EmptyString => if is_space c then EmptyString else String c EmptyString
      | t => String c t
      end
  | EmptyString => EmptyString
  end.

(** [s.strip()] *)
Definition strip (s : string) : string := rstrip (lstrip s).

Definition is_digit (c : ascii) : bool :=
  let n := N_of_ascii c in ((48 <=? n) && (n <=? 57))%N.

Fixpoint all_digits (s : string) : bool :=
  match s with
  | String c s' => is_digit c && all_digits s'
  | EmptyString => true
  end.

(** [s.isdigit()]: non-empty and digits only (strings are ASCII here). *)
Definition isdigit (s : string) : bool :=
  match s with
  | EmptyString => false
  | _ => all_digits s
  end.

Fixpoint digits_value (acc : Z) (s : string) : Z :=
  match s with
  | String c s' => digits_value (10 * acc + (Z.of_N (N_of_ascii c) - 48)) s'
  | EmptyString => acc
  end.

(** [int(s)] on text: surrounding blanks, an optional sign, decimal
    digits.  [None] stands for the [ValueError]. *)
Definition py_int (s : string) : option Z :=
  match strip s with
  | String "-" t => if isdigit t then Some (- digits_value 0 t) else None
  | String "+" t => if isdigit t then Some (digits_value 0 t) else None
  | t => if isdigit t then Some (digits_value 0 t) else None
  end.

(** [str(n)] for an int. *)
Definition str_of_int (n : Z) : string :=
  NilZero.string_of_int (Z.to_int n).

(** [sep.join(l)] *)
Fixpoint join (sep : string) (l : list string) : string :=
  match l with
  | [] => EmptyString
  | [s] => s
  | s :: l' => (s ++ sep ++ join sep l')%string
  end.

(** ** Configuration *)

Definition QUARTERS : list string := ["SoS"; "Q1"; "Q2"; "Q3"; "EoS"].
Definition RSP_FLOORS : list string := ["A2"; "A3"; "A4"; "B2"; "B3"; "B4"].
Definition RSP_METRICS : list string :=
  ["Headcount"; "Piles"; "Damages"; "LAF"; "ISS"; "NONCON"].
Definition DOCK_METRICS : list string :=
  ["Headcount"; "Piles"; "Liquid Damages"; "Dry Damages"; "LAF"; "ISS"; "NC"].
Definition DAMAGELAND_METRICS : list string :=
  ["Headcount"; "Backlog"; "Damage Stow"; "Received"; "Deletes"].
Definition OTHER_ROLES : list string :=
  ["Customer Returns"; "Inbound Support Services (ICQA)"; "IOL"; "GK"].

(** ** Records and the dataset *)

(** One observation: field name to value. *)
Definition record : Type := dict string value.

(** [shift_data]: quarter to (role to record). *)
Definition dataset : Type := dict string (dict value record).

(** [row.update(data)] *)
Definition dict_update {K V : Type} `{Key K} (row data : dict K V) : dict K V :=
  fold_left (fun acc kv => dict_set (fst kv) (snd kv) acc) data row.

(** ** DataFrames *)

(** Column labels and rows; a row maps labels to cells and a label it
    lacks reads as an empty cell. *)
Record DataFrame : Type := mkDF {
  columns : list string;
  rows : list record
}.

(** [pd.DataFrame()] *)
Definition empty_frame : DataFrame := mkDF [] [].

Definition cell (r : record) (c : string) : value :=
  match dict_get c r with Some v => v | None => VNaN end.

(** [pd.isna] *)
Definition isna (v : value) : bool :=
  match v with VNone | VNaN => true | _ => false end.

(** The row laid out on the given labels. *)
Definition reindex (cols : list string) (r : record) : record :=
  map (fun c => (c, cell r c)) cols.

Definition add_new (acc ks : list string) : list string :=
  fold_left (fun a k => if list_mem k a then a else a ++ [k]) ks acc.

(** [pd.DataFrame(records)]: the labels are the keys of the records in
    order of first appearance. *)
Definition DataFrame_of (records : list record) : DataFrame :=
  let cols := fold_left (fun acc r => add_new acc (dict_keys r)) records [] in
  mkDF cols (map (reindex cols) records).

(** [df.empty] *)
Definition df_empty (df : DataFrame) : bool :=
  match columns df, rows df with
  | [], _ => true
  | _, [] => true
  | _, _ => false
  end.

(** [df[c]] as a list of cells. *)
Definition column (c : string) (rs : list record) : list value :=
  map (fun r => cell r c) rs.

(** [df.drop(columns=[c])] where the label is present. *)
Definition drop_column (c : string) (df : DataFrame) : DataFrame :=
  let keep := fun k : string => negb (String.eqb k c) in
  mkDF (filter keep (columns df))
       (map (filter (fun kv : string * value => keep (fst kv))) (rows df)).

(** [df[c] = ...], each cell computed from its row. *)
Definition assign_column (c : string) (f : record -> value) (df : DataFrame)
  : DataFrame :=
  mkDF (if list_mem c (columns df) then columns df else columns df ++ [c])
       (map (fun r => dict_set c (f r) r) (rows df)).

(** [pd.concat(dataframes, ignore_index=True)]: the union of the
    labels, each frame's rows laid out on it. *)
Definition concat (dfs : list DataFrame) : DataFrame :=
  let cols := fold_left (fun acc df => add_new acc (columns df)) dfs [] in
  mkDF cols (flat_map (fun df => map (reindex cols) (rows df)) dfs).

(** ** The order of cells *)

(** How pandas orders the cells of a key column: missing cells last,
    numbers before text, numbers by value, text by code point. *)
Definition value_cmp (a b : value) : comparison :=
  match a, b with
  | (VNone | VNaN), (VNone | VNaN) => Eq
  | (VNone | VNaN), _ => Gt
  | _, (VNone | VNaN) => Lt
  | VInt x, VInt y => Z.compare x y
  | VInt _, VStr _ => Lt
  | VStr _, VInt _ => Gt
  | VStr s, VStr t => String.compare s t
  end.

Definition not_gt (c : comparison) : bool :=
  match c with Gt => false | _ => true end.

Definition value_leb (a b : value) : bool := not_gt (value_cmp a b).

(** Stable insertion sort. *)
Fixpoint insert {A : Type} (leb : A -> A -> bool) (x : A) (l : list A) : list A :=
  match l with
  | [] => [x]
  | y :: l' => if leb x y then x :: l else y :: insert leb x l'
  end.

Fixpoint isort {A : Type} (leb : A -> A -> bool) (l : list A) : list A :=
  match l with
  | [] => []
  | x :: l' => insert leb x (isort leb l')
  end.

(** Rows compared under [by=[...]]: by the first label, ties by the
    next. *)
Fixpoint row_cmp (by_ : list string) (r1 r2 : record) : comparison :=
  match by_ with
  | [] => Eq
  | c :: by' =>
      match value_cmp (cell r1 c) (cell r2 c) with
      | Eq => row_cmp by' r1 r2
      | x => x
      end
  end.

Definition row_leb (by_ : list string) (r1 r2 : record) : bool :=
  not_gt (row_cmp by_ r1 r2).

(** ** Exceptions *)

Inductive exn : Type :=
| KeyError (k : string)
| ValueError (m : string)
| NameError (n : string)
| FileNotFoundError.

Inductive result (A : Type) : Type :=
| Ok (a : A)
| Raise (e : exn).
Arguments Ok {A} a.
Arguments Raise {A} e.

(** [df.sort_values(by=[...])]: a label that is no column is a
    [KeyError]. *)
Definition sort_values (by_ : list string) (df : DataFrame) : result DataFrame :=
  match filter (fun c => negb (list_mem c (columns df))) by_ with
  | [] => Ok (mkDF (columns df) (isort (row_leb by_) (rows df)))
  | c :: _ => Raise (KeyError c)
  end.

(** ** Grouped aggregation *)

(** [pd.api.types.is_numeric_dtype]: the column holds numbers and
    empty cells only. *)
Definition is_numeric_dtype (col : list value) : bool :=
  forallb (fun v => match v with VInt _ | VNaN => true | _ => false end) col.

Definition num_or_0 (v : value) : Z :=
  match v with VInt n => n | _ => 0 end.

(** [x.sum()]: empty cells are skipped. *)
Definition sum_cells (col : list value) : Z :=
  fold_right (fun v acc => num_or_0 v + acc) 0 col.

(** [x.iloc[0]] of a non-empty column. *)
Definition iloc0 (col : list value) : value :=
  match col with v :: _ => v | [] => VNaN end.

Fixpoint dedup (l : list value) : list value :=
  match l with
  | [] => []
  | v :: l' => v :: filter (fun u => negb (value_eqb u v)) (dedup l')
  end.

(** The rows of one group, in frame order. *)
Definition group (key : string) (k : value) (rs : list record) : list record :=
  filter (fun r => value_eqb (cell r key) k) rs.

(** [lambda x: x.sum() if is_numeric_dtype(x) else x.iloc[0]]; the
    dtype is the column's in the grouped frame. *)
Definition reduce (df : DataFrame) (c : string) (g : list record) : value :=
  if is_numeric_dtype (column c (rows df)) then VInt (sum_cells (column c g))
  else iloc0 (column c g).

(** The key values of the groups: the cells of the key column that are
    not missing, each once, in key order. *)
Definition group_keys (key : string) (df : DataFrame) : list value :=
  isort value_leb (dedup (filter (fun v => negb (isna v)) (column key (rows df)))).

(** The row of one group: the key, then each other column reduced. *)
Definition agg_row (key : string) (df : DataFrame) (others : list string)
  (k : value) : record :=
  (key, k) :: map (fun c => (c, reduce df c (group key k (rows df)))) others.

(** [df.groupby(key, as_index=False).agg(...)]: one row per key value
    in key order, rows with a missing key left out, the key first. *)
Definition groupby_agg (key : string) (df : DataFrame) : result DataFrame :=
  if list_mem key (columns df) then
    let others := filter (fun c => negb (String.eqb c key)) (columns df) in
    Ok (mkDF (key :: others) (map (agg_row key df others) (group_keys key df)))
  else Raise (KeyError key).

(** ** Workbooks *)

(** A spreadsheet cell: empty, a number, or text. *)
Inductive xcell : Type :=
| XEmpty
| XInt (n : Z)
| XStr (s : string).

(** A sheet: the header row and the rows below it. *)
Record Sheet : Type := mkSheet {
  header : list string;
  body : list (list xcell)
}.

(** The workbook file: sheet name to sheet, in sheet order. *)
Definition Workbook : Type := dict string Sheet.

(** What [to_excel] writes for a value: [None], NaN and empty text
    leave the cell empty. *)
Definition to_xcell (v : value) : xcell :=
  match v with
  | VNone | VNaN => XEmpty
  | VInt n => XInt n
  | VStr EmptyString => XEmpty
  | VStr s => XStr s
  end.

(** What [read_excel] reads from a cell. *)
Definition of_xcell (x : xcell) : value :=
  match x with
  | XEmpty => VNaN
  | XInt n => VInt n
  | XStr EmptyString => VNaN
  | XStr s => VStr s
  end.

(** [df.to_excel(writer, sheet_name=..., index=False)]: the sheet
    written.  A frame without columns writes nothing. *)
Definition to_excel (df : DataFrame) : Sheet :=
  match columns df with
  | [] => mkSheet [] []
  | cols => mkSheet cols (map (fun r => map (fun c => to_xcell (cell r c)) cols) (rows df))
  end.

(** The frame [pd.read_excel] builds from a sheet. *)
Definition read_sheet (s : Sheet) : DataFrame :=
  mkDF (header s) (map (fun xr => combine (header s) (map of_xcell xr)) (body s)).

(** ** The world the program runs in *)

(** What the user sees and what reaches the disk. *)
Inductive event : Type :=
| showerror (title : string)
| showinfo (title : string)
| printed_warning
| sheet_written (name : string)
| json_written.

Record World : Type := mkWorld {
  shift_data : dataset;           (* the global dictionary *)
  json_file : option dataset;     (* the contents of DATA_JSON, if the file exists *)
  xlsx : option Workbook;         (* the workbook at the shift's file path, if it exists *)
  trace : list event
}.

(** Computations that read and write the world and may raise.  As in
    Python, what was written before an exception stays written. *)
Definition M (A : Type) : Type := World -> result A * World.

Definition ret {A : Type} (a : A) : M A := fun w => (Ok a, w).

Definition bind {A B : Type} (m : M A) (f : A -> M B) : M B :=
  fun w =>
    match m w with
    | (Ok a, w') => f a w'
    | (Raise e, w') => (Raise e, w')
    end.

Definition raise {A : Type} (e : exn) : M A := fun w => (Raise e, w).

(** [try: body except Exception as e: handler] *)
Definition try_except {A : Type} (body : M A) (handler : exn -> M A) : M A :=
  fun w =>
    match body w with
    | (Raise e, w') => handler e w'
    | r => r
    end.

Definition lift {A : Type} (r : result A) : M A := fun w => (r, w).

Notation "x <- m ;; k" := (bind m (fun x => k))
  (at level 61, m at next level, right associativity).
Notation "m ;; k" := (bind m (fun _ => k))
  (at level 61, right associativity).

Definition emit (e : event) : M unit :=
  fun w => (Ok tt, mkWorld (shift_data w) (json_file w) (xlsx w) (trace w ++ [e])).

Definition get_shift_data : M dataset := fun w => (Ok (shift_data w), w).

Definition set_shift_data (ds : dataset) : M unit :=
  fun w => (Ok tt, mkWorld ds (json_file w) (xlsx w) (trace w)).

(** [os.path.exists(file_path)] *)
Definition file_exists : M bool :=
  fun w => (Ok (match xlsx w with Some _ => true | None => false end), w).

(** [load_workbook(file_path).sheetnames] *)
Definition sheetnames : M (list string) :=
  fun w =>
    match xlsx w with
    | Some wb => (Ok (dict_keys wb), w)
    | None => (Raise FileNotFoundError, w)
    end.

(** [pd.read_excel(file_path, sheet_name=name)] *)
Definition read_excel (name : string) : M DataFrame :=
  fun w =>
    match xlsx w with
    | Some wb =>
        match dict_get name wb with
        | Some s => (Ok (read_sheet s), w)
        | None => (Raise (ValueError name), w)
        end
    | None => (Raise FileNotFoundError, w)
    end.

(** [with pd.ExcelWriter(file_path, mode='a', if_sheet_exists='replace')
    as writer: df.to_excel(writer, sheet_name=name, index=False)]:
    the named sheet is replaced where it stands, or added last. *)
Definition write_sheet (df : DataFrame) (name : string) : M unit :=
  fun w =>
    match xlsx w with
    | Some wb =>
        (Ok tt,
         mkWorld (shift_data w) (json_file w)
           (Some (dict_set name (to_excel df) wb))
           (trace w ++ [sheet_written name]))
    | None => (Raise FileNotFoundError, w)
    end.

(** ** File and data management *)

Definition DATA_JSON : string := "shift_data.json".

Definition save_data_to_json (data : dataset) : M unit :=
  fun w =>
    (Ok tt, mkWorld (shift_data w) (Some data) (xlsx w) (trace w ++ [json_written])).

Definition load_data_from_json : M unit :=
  fun w =>
    match json_file w with
    | Some data => (Ok tt, mkWorld data (json_file w) (xlsx w) (trace w))
    | None => (Ok tt, w)
    end.

Definition create_new_workbook : M unit :=
  fun w =>
    (Ok tt,
     mkWorld (shift_data w) (json_file w)
       (Some (map (fun name => (name, mkSheet [] []))
                ["SoS"; "Q1"; "Q2"; "Q3"; "EoS"; "Wash"; "Shift Changes"]))
       (trace w)).

(** A workbook file the user picked: its folder, its modification
    time and its contents. *)
Record ExcelFile : Type := mkFile {
  file_dir : string;
  file_mtime : Z;
  file_book : Workbook
}.

(** [max(files, key=os.path.getmtime)]: the first of the newest. *)
Fixpoint max_mtime (best : ExcelFile) (files : list ExcelFile) : ExcelFile :=
  match files with
  | [] => best
  | f :: files' =>
      max_mtime (if file_mtime best <? file_mtime f then f else best) files'
  end.

(** The loop body over the rows of one sheet:
    [quarter_dict[row["Role"]] = row.to_dict()]. *)
Definition quarter_dict_of (df : DataFrame) : dict value record :=
  fold_left
    (fun quarter_dict row =>
       dict_set (cell row "Role") (reindex (columns df) row) quarter_dict)
    (rows df) [].

(** One turn of [for q in QUARTERS]. *)
Definition import_quarter (wb : Workbook) (data : dataset) (q : string) : dataset :=
  match dict_get q wb with
  | Some s =>
      let df := read_sheet s in
      if negb (df_empty df) && list_mem "Role" (columns df)
      then dict_set q (quarter_dict_of df) data
      else data
  | None => data
  end.

Definition import_files (files : list ExcelFile) : M unit :=
  match files with
  | [] => ret tt
  | f :: rest =>
      if negb (forallb (fun g => String.eqb (file_dir g) (file_dir f)) rest)
      then emit (showerror "Error")
      else
        let latest_file := max_mtime f rest in
        data <- get_shift_data ;;
        set_shift_data (fold_left (import_quarter (file_book latest_file)) QUARTERS data) ;;
        data <- get_shift_data ;;
        save_data_to_json data ;;
        emit (showinfo "Import Successful")
  end.

(** ** Excel sheet updates *)

Definition save_quarter_to_excel (quarter : string) (records : list record) : M unit :=
  let df := DataFrame_of records in
  let df :=
    if String.eqb quarter "EoS" && list_mem "Quarter" (columns df)
    then drop_column "Quarter" df else df in
  write_sheet df quarter.

(** The frames of the sheets among [names] that the workbook has. *)
Fixpoint read_existing (present names : list string) : M (list DataFrame) :=
  match names with
  | [] => ret []
  | sheet_name :: names' =>
      if list_mem sheet_name present then
        df <- read_excel sheet_name ;;
        dataframes <- read_existing present names' ;;
        ret (df :: dataframes)
      else read_existing present names'
  end.

Definition aggregate_data (current_quarter : string) : M unit :=
  if String.eqb current_quarter "EoS" then
    df <- read_excel "EoS" ;;
    let df :=
      if list_mem "Quarter" (columns df) then drop_column "Quarter" df else df in
    write_sheet df "EoS"
  else
    try_except
      (present <- sheetnames ;;
       dataframes <- read_existing present ["SoS"; "Q1"; "Q2"; "Q3"] ;;
       match dataframes with
       | [] => ret tt
       | _ =>
           let combined_df := concat dataframes in
           agg_df <- lift (groupby_agg "Role" combined_df) ;;
           write_sheet agg_df "EoS"
       end)
      (fun _ => emit (showerror "Error")).

(** [quarter_order.get(x, 99)] *)
Definition quarter_order (x : value) : Z :=
  match x with
  | VStr "SoS" => 1
  | VStr "Q1" => 2
  | VStr "Q2" => 3
  | VStr "Q3" => 4
  | VStr "EoS" => 5
  | _ => 99
  end.

(** The rows gathered from the dataset, one per (quarter, role). *)
Definition summary_rows (data : dataset) : list record :=
  flat_map
    (fun qr : string * dict value record =>
       map (fun rd : value * record =>
              dict_update [("Quarter", VStr (fst qr))] (snd rd))
           (snd qr))
    data.

(** The frame written to the Shift Changes sheet. *)
Definition summary_frame (data : dataset) : result DataFrame :=
  let df := DataFrame_of (summary_rows data) in
  if list_mem "Quarter" (columns df) then
    let df :=
      assign_column "QuarterOrder"
        (fun r => VInt (quarter_order (cell r "Quarter"))) df in
    match sort_values ["QuarterOrder"; "Role"] df with
    | Ok df => Ok (drop_column "QuarterOrder" df)
    | Raise e => Raise e
    end
  else Ok df.

Definition update_shift_changes_summary : M unit :=
  data <- get_shift_data ;;
  df <- lift (summary_frame data) ;;
  write_sheet df "Shift Changes".

(** Only column widths change; the cells stay as they are. *)
Definition adjust_excel_columns : M unit :=
  _ <- sheetnames ;; ret tt.

(** ** The entry form *)

(** The text held by the form's fields when Submit is pressed. *)
Record Form : Type := mkForm {
  selected_quarter : string;
  rsp_entries : string -> string -> string;   (* floor, metric *)
  dock_entries : string -> string;            (* metric *)
  dmg_entries : string -> string;             (* metric *)
  other_entries : string -> string;           (* role *)
  rsp_headcount_total_var : string;
  non_rsp_headcount_total_var : string
}.

Definition validate_numeric (value : string) : bool :=
  String.eqb (strip value) "" || isdigit (strip value).

(** [int(val) if (val and validate_numeric(val)) else None] for the
    stripped text of a field; [int] cannot fail on what passed the
    test. *)
Definition entry_value (text : string) : value :=
  let val := strip text in
  if negb (String.eqb val "") && validate_numeric val then
    match py_int val with Some n => VInt n | None => VNone end
  else VNone.

(** [int(var.get())] guarded by [except: 0]. *)
Definition total_value (text : string) : value :=
  match py_int text with Some n => VInt n | None => VInt 0 end.

Definition collect_data (form : Form) : list record :=
  let current_quarter := VStr (selected_quarter form) in
  let total_piles :=
    fold_right Z.add 0
      (map (fun floor => digits_value 0 (strip (rsp_entries form floor "Piles")))
           (filter (fun floor => isdigit (strip (rsp_entries form floor "Piles")))
                   RSP_FLOORS)) in
  map (fun floor =>
         [("Quarter", current_quarter);
          ("Role", VStr ("RSP (" ++ floor ++ ")")%string);
          ("Floor", VStr floor)]
         ++ map (fun metric => (metric, entry_value (rsp_entries form floor metric)))
                RSP_METRICS)
      RSP_FLOORS
  ++ [[("Quarter", current_quarter); ("Role", VStr "RSP (Total)");
       ("Floor", VStr ""); ("Piles", VInt total_piles)]]
  ++ [[("Quarter", current_quarter); ("Role", VStr "RSP (Headcount Total)");
       ("Floor", VStr "");
       ("Headcount", total_value (rsp_headcount_total_var form))]]
  ++ [[("Quarter", current_quarter); ("Role", VStr "Dock"); ("Floor", VStr "")]
      ++ map (fun metric => (metric, entry_value (dock_entries form metric)))
             DOCK_METRICS]
  ++ [[("Quarter", current_quarter); ("Role", VStr "Damageland"); ("Floor", VStr "")]
      ++ map (fun metric => (metric, entry_value (dmg_entries form metric)))
             DAMAGELAND_METRICS]
  ++ map (fun role =>
            [("Quarter", current_quarter); ("Role", VStr role); ("Floor", VStr "");
             ("Headcount", entry_value (other_entries form role))])
         OTHER_ROLES
  ++ [[("Quarter", current_quarter); ("Role", VStr "Non-RSP (Headcount Total)");
       ("Floor", VStr "");
       ("Headcount", total_value (non_rsp_headcount_total_var form))]].

(** ** Submission *)

(** The steps of [submit_data] in order.  [compute_differences] is not
    defined anywhere in the program, so the first [try] always ends in
    its handler; clearing the form changes no data. *)
Definition submit_data (form : Form) : M unit :=
  let records := collect_data form in
  let quarter := selected_quarter form in
  present <- file_exists ;;
  (if present then ret tt else create_new_workbook) ;;
  try_except
    (_ <- read_excel quarter ;;
     raise (NameError "compute_differences"))
    (fun _ => emit printed_warning) ;;
  saved <- try_except
             (save_quarter_to_excel quarter records ;; ret true)
             (fun _ => emit (showerror "Error") ;; ret false) ;;
  if saved : bool then
    aggregate_data quarter ;;
    update_shift_changes_summary ;;
    adjust_excel_columns ;;
    emit (showinfo "Success") ;;
    load_data_from_json
  else ret tt.

(** ** Delta analysis *)

(** What the Python runtime decides. *)
Record PyRuntime : Type := mkRuntime {
  float_of_str : string -> option float;   (* float(s) on text; None is the ValueError *)
  str_of_float : float -> string;          (* str(x) *)
  format_1f : float -> string;             (* format(x, ".1f") *)
  set_iter : list value -> list value      (* the order in which a set of these elements is iterated *)
}.

(** The numbers of a delta row: the int literal [0] or a float. *)
Inductive pynum : Type :=
| PyInt (n : Z)
| PyFloat (f : float).

(** The float nearest to an integer. *)
Definition Z2float (n : Z) : float :=
  SF2Prim (binary_normalize prec emax n 0 false).

(** [float(n)] on an int; [None] is the [OverflowError]. *)
Definition float_of_int (n : Z) : option float :=
  match binary_normalize prec emax n 0 false with
  | S754_infinity _ => None
  | sf => Some (SF2Prim sf)
  end.

(** [float(v)]; [None] is the exception raised. *)
Definition py_float (rt : PyRuntime) (v : value) : option float :=
  match v with
  | VInt n => float_of_int n
  | VNaN => Some nan
  | VStr s => float_of_str rt s
  | VNone => None
  end.

Definition as_float (x : pynum) : float :=
  match x with PyInt n => Z2float n | PyFloat f => f end.

Definition py_sub (a b : pynum) : pynum :=
  match a, b with
  | PyInt x, PyInt y => PyInt (x - y)
  | _, _ => PyFloat (as_float a - as_float b)
  end.

Definition py_mul (a b : pynum) : pynum :=
  match a, b with
  | PyInt x, PyInt y => PyInt (x * y)
  | _, _ => PyFloat (as_float a * as_float b)
  end.

(** True division by a divisor that is not zero. *)
Definition py_div (a b : pynum) : pynum :=
  PyFloat (as_float a / as_float b).

(** [x != 0] *)
Definition py_ne0 (x : pynum) : bool :=
  match x with
  | PyInt n => negb (n =? 0)
  | PyFloat f => negb (PrimFloat.eqb f 0)
  end.

(** One row of the difference table. *)
Record delta_row : Type := mkDelta {
  Role : value;
  Metric : string;
  Old_Value : pynum;
  New_Value : pynum;
  Difference : pynum;
  Percent_Change : pynum
}.

(** [float(data.get(key, 0)) if data.get(key) is not None else 0];
    [None] is the exception of [float]. *)
Definition coerce (rt : PyRuntime) (data : record) (key : string) : option pynum :=
  match dict_get key data with
  | None | Some VNone => Some (PyInt 0)
  | Some v => option_map PyFloat (py_float rt v)
  end.

(** The body of the loop over the keys: nothing when a conversion
    raises ([continue]), one row otherwise. *)
Definition delta_of (rt : PyRuntime) (role : value) (data1 data2 : record)
  (key : string) : list delta_row :=
  match coerce rt data1 key, coerce rt data2 key with
  | Some old_val, Some new_val =>
      let diff := py_sub new_val old_val in
      let pct :=
        if py_ne0 old_val then py_mul (py_div diff old_val) (PyInt 100)
        else PyInt 0 in
      [mkDelta role key old_val new_val diff pct]
  | _, _ => []
  end.

(** The body of the loop over the common roles. *)
Definition role_deltas (rt : PyRuntime) (roles1 roles2 : dict value record)
  (role : value) : list delta_row :=
  match dict_get role roles1, dict_get role roles2 with
  | Some data1, Some data2 =>
      flat_map (delta_of rt role data1 data2) (dict_keys data1)
  | _, _ => []
  end.

(** [str(v)] *)
Definition py_str (v : value) : string :=
  match v with
  | VNone => "None"
  | VNaN => "nan"
  | VInt n => str_of_int n
  | VStr s => s
  end.

Definition str_num (rt : PyRuntime) (x : pynum) : string :=
  match x with PyInt n => str_of_int n | PyFloat f => str_of_float rt f end.

Definition newline : string := String (ascii_of_nat 10) EmptyString.

(** [f"{role} - {key}: {old_val} -> {new_val} | Diff: {diff} | {pct:.1f}%"] *)
Definition summary_line (rt : PyRuntime) (r : delta_row) : string :=
  (py_str (Role r) ++ " - " ++ Metric r ++ ": " ++ str_num rt (Old_Value r)
   ++ " -> " ++ str_num rt (New_Value r) ++ " | Diff: "
   ++ str_num rt (Difference r) ++ " | "
   ++ format_1f rt (as_float (Percent_Change r)) ++ "%")%string.

(** The roles of both quarters, as the set holds them. *)
Definition common_roles (rt : PyRuntime) (roles1 roles2 : dict value record)
  : list value :=
  set_iter rt (dedup (filter (fun r => dict_mem r roles2) (dict_keys roles1))).

(** The summary text and the difference table ([pd.DataFrame(rows)],
    row by row; no rows is the empty frame). *)
Definition compute_deltas_between (rt : PyRuntime) (shift_data : dataset)
  (q1 q2 : string) : string * list delta_row :=
  match dict_get q1 shift_data, dict_get q2 shift_data with
  | Some roles1, Some roles2 =>
      let rows :=
        flat_map (role_deltas rt roles1 roles2) (common_roles rt roles1 roles2) in
      let summary_lines := map (summary_line rt) rows in
      (match summary_lines with
       | [] => "No common numeric data found."
       | _ => join newline summary_lines
       end,
       rows)
  | _, _ => ("One or both quarters are not available.", [])
  end.

(** ** A runtime to evaluate with *)

(** [format(x, ".1f")]: the exact value rounded half-even to one
    decimal. *)
Definition demo_format_1f (x : float) : string :=
  match Prim2SF x with
  | S754_nan => "nan"
  | S754_infinity s => if s then "-inf" else "inf"
  | S754_zero s => if s then "-0.0" else "0.0"
  | S754_finite s m e =>
      let tenths :=
        if 0 <=? e then 10 * Z.pos m * 2 ^ e
        else
          let d := 2 ^ (- e) in
          let q := (10 * Z.pos m) / d in
          let r := (10 * Z.pos m) mod d in
          if (2 * r <? d) || ((2 * r =? d) && Z.even q) then q else q + 1 in
      ((if s then "-" else "") ++ str_of_int (tenths / 10) ++ "."
       ++ str_of_int (tenths mod 10))%string
  end.

(** [str(x)] where the float is a whole number below 10^16, which
    Python prints with one decimal; other floats are not printed by this
    runtime. *)
Definition demo_str_of_float (x : float) : string :=
  match Prim2SF x with
  | S754_nan => "nan"
  | S754_infinity s => if s then "-inf" else "inf"
  | S754_zero s => if s then "-0.0" else "0.0"
  | S754_finite s m e =>
      if (0 <=? e) && (Z.pos m * 2 ^ e <? 10 ^ 16) then
        ((if s then "-" else "") ++ str_of_int (Z.pos m * 2 ^ e) ++ ".0")%string
      else if (e <? 0) && (Z.pos m mod 2 ^ (- e) =? 0) then
        ((if s then "-" else "") ++ str_of_int (Z.pos m / 2 ^ (- e)) ++ ".0")%string
      else "<float>"
  end.

(** It parses the integer literals among the texts, and iterates a set
    in the order its elements were listed. *)
Definition demo_runtime : PyRuntime :=
  mkRuntime
    (fun s => match py_int s with Some n => float_of_int n | None => None end)
    demo_str_of_float
    demo_format_1f
    (fun l => l).

(** The same runtime with sets iterated the other way round. *)
Definition demo_runtime_rev : PyRuntime :=
  mkRuntime (float_of_str demo_runtime) demo_str_of_float demo_format_1f (@rev value).

(** ** Vocabulary of the properties *)

(** The named sheet of the workbook, if both exist. *)
Definition sheet_of (w : World) (name : string) : option Sheet :=
  match xlsx w with
  | Some wb => dict_get name wb
  | None => None
  end.

(** The frames of the sheets among [names] that the workbook holds,
    in the order of [names]. *)
Definition frames_of (wb : Workbook) (names : list string) : list DataFrame :=
  flat_map
    (fun name =>
       match dict_get name wb with
       | Some s => [read_sheet s]
       | None => []
       end)
    names.

(** The EoS frame with any Quarter column dropped. *)
Definition without_Quarter (df : DataFrame) : DataFrame :=
  if list_mem "Quarter" (columns df) then drop_column "Quarter" df else df.

Definition is_json_written (e : event) : bool :=
  match e with json_written => true | _ => false end.

(** The store and the dataset in memory after a step: the JSON file
    is as before and was not written, and the dataset is as before or
    is the one the file holds. *)
Definition store_untouched (w w' : World) : Prop :=
  json_file w' = json_file w /\
  filter is_json_written (trace w') = filter is_json_written (trace w) /\
  (shift_data w' = shift_data w \/ json_file w = Some (shift_data w')).

(** A computation all of whose runs relate the world before to the
    world after. *)
Definition preserves {A : Type} (R : World -> World -> Prop) (m : M A) : Prop :=
  forall w, R w (snd (m w)).

(** A form with 5 in the Dock headcount field and nothing else, for
    the start of shift. *)
Definition dock_five : Form :=
  mkForm "SoS" (fun _ _ => "")
    (fun metric => if String.eqb metric "Headcount" then "5" else "")
    (fun _ => "") (fun _ => "") "0" "5".

(** The first run: no dataset, no JSON file, no workbook. *)
Definition fresh_world : World := mkWorld [] None None [].

(** The sheets the EoS resolver adds up. *)
Definition CONTRIBUTING : list string := ["SoS"; "Q1"; "Q2"; "Q3"].

(** A workbook with an EoS sheet and none of the contributing sheets. *)
Definition eos_only : Workbook :=
  [("EoS", mkSheet ["Role"; "Headcount"] [[XStr "Dock"; XInt 5]]);
   ("Wash", mkSheet [] [])].

(** The frame the import takes for a quarter: its sheet exists and has
    at least one row and a Role column. *)
Definition imported_frame (wb : Workbook) (q : string) : option DataFrame :=
  match dict_get q wb with
  | Some s =>
      let df := read_sheet s in
      if negb (df_empty df) && list_mem "Role" (columns df) then Some df else None
  | None => None
  end.

(** The last row of a frame with the given Role cell. *)
Definition last_row_of (role : value) (rs : list record) : option record :=
  find (fun r => value_eqb (cell r "Role") role) (rev rs).

(** A dataset with two roles stored under SoS, and a workbook whose SoS
    sheet has a row for one of them only. *)
Definition sos_two_roles : dataset :=
  [("SoS", [(VStr "Dock", [("Role", VStr "Dock"); ("Headcount", VInt 4)]);
            (VStr "GK", [("Role", VStr "GK"); ("Headcount", VInt 2)])])].

Definition dock_only_file : ExcelFile :=
  mkFile "exports/2025-01-01" 1
    [("SoS", mkSheet ["Role"; "Headcount"] [[XStr "Dock"; XInt 7]])].


(** A row without its helper cell. *)
Definition without_helper (r : record) : record :=
  filter (fun kv : string * value => negb (String.eqb (fst kv) "QuarterOrder")) r.

(** The rows as sorted: each with its rank in the helper cell. *)
Definition with_helper (r : record) : record :=
  dict_set "QuarterOrder" (VInt (quarter_order (cell r "Quarter"))) r.

(** A value as a sheet holds it: writing and reading it back gives it
    again. *)
Definition excel_value (v : value) : Prop := of_xcell (to_xcell v) = v.

(** The total of a column for a role: over the contributing sheets,
    over the rows of that role in the sheet, the number in the cell, an
    empty cell counting as 0. *)
Definition role_total (role : value) (c : string) (dfs : list DataFrame) : Z :=
  fold_right Z.add 0
    (map (fun r => match cell r c with VInt n => n | _ => 0 end)
       (filter (fun r => value_eqb (cell r "Role") role) (flat_map rows dfs))).

(** A column that holds numbers and empty cells only, in every
    contributing sheet. *)
Definition numeric_column (c : string) (dfs : list DataFrame) : bool :=
  forallb (fun r => match cell r c with VInt _ | VNaN => true | _ => false end)
    (flat_map rows dfs).

(** The first row of a role: in sheet order, then in row order. *)
Definition first_of_role (role : value) (dfs : list DataFrame) : option record :=
  hd_error (flat_map (fun df => group "Role" role (rows df)) dfs).

(** A row as it reads back from the sheet it was written to. *)
Definition read_back (cols : list string) (r : record) : record :=
  combine cols (map (fun c => of_xcell (to_xcell (cell r c))) cols).

(** A workbook with two contributing sheets and an empty EoS sheet. *)
Definition two_sheets : Workbook :=
  [("SoS", mkSheet ["Quarter"; "Role"; "Floor"; "Headcount"]
             [[XStr "SoS"; XStr "Dock"; XEmpty; XInt 4];
              [XStr "SoS"; XStr "RSP (A2)"; XStr "A2"; XInt 2]]);
   ("Q1", mkSheet ["Quarter"; "Role"; "Floor"; "Headcount"; "Piles"]
            [[XStr "Q1"; XStr "Dock"; XEmpty; XInt 6; XInt 1];
             [XStr "Q1"; XStr "RSP (A2)"; XStr "A2"; XEmpty; XInt 3]]);
   ("EoS", mkSheet [] [])].

(** A dataset with records of three quarters, as an import leaves
    them. *)
Definition three_quarters : dataset :=
  [("EoS", [(VStr "Dock", [("Role", VStr "Dock"); ("Headcount", VInt 9)])]);
   ("Q1", [(VStr "GK", [("Quarter", VStr "Q1"); ("Role", VStr "GK"); ("Headcount", VInt 3)]);
           (VStr "Dock", [("Quarter", VStr "Q1"); ("Role", VStr "Dock"); ("Headcount", VInt 6)])]);
   ("SoS", [(VStr "IOL", [("Quarter", VStr "SoS"); ("Role", VStr "IOL"); ("Headcount", VInt 1)]);
            (VStr "Dock", [("Quarter", VStr "SoS"); ("Role", VStr "Dock"); ("Headcount", VInt 4)])])].

(** A set is iterated in some order of its elements. *)
Definition set_iter_ok (rt : PyRuntime) : Prop :=
  forall l : list value, Permutation (set_iter rt l) l.

(** Two runtimes that convert and print alike. *)
Definition same_builtins (rt1 rt2 : PyRuntime) : Prop :=
  float_of_str rt1 = float_of_str rt2 /\
  str_of_float rt1 = str_of_float rt2 /\
  format_1f rt1 = format_1f rt2.

(** [Percent Change] as the guard computes it. *)
Definition guarded_percent (old_val diff : pynum) : pynum :=
  if py_ne0 old_val then py_mul (py_div diff old_val) (PyInt 100) else PyInt 0.

(** The dataset with a headcount that goes from 0 to 5. *)
Definition zero_to_five : dataset :=
  [("SoS", [(VStr "Dock", [("Headcount", VInt 0)])]);
   ("Q1", [(VStr "Dock", [("Headcount", VInt 5)])])].

(** The dataset with a headcount that goes from 10 to 12. *)
Definition ten_to_twelve : dataset :=
  [("SoS", [(VStr "Dock", [("Headcount", VInt 10)])]);
   ("Q1", [(VStr "Dock", [("Headcount", VInt 12)])])].

(** Two roles of two quarters, each with one count. *)
Definition two_roles : dataset :=
  [("SoS", [(VStr "Dock", [("Headcount", VInt 4)]);
            (VStr "GK", [("Headcount", VInt 2)])]);
   ("Q1", [(VStr "Dock", [("Headcount", VInt 6)]);
           (VStr "GK", [("Headcount", VInt 3)])])].

(** The world with one more event shown or written. *)
Definition with_event (w : World) (e : event) : World :=
  mkWorld (shift_data w) (json_file w) (xlsx w) (trace w ++ [e]).

(** The frame [save_quarter_to_excel] writes for a batch of records. *)
Definition quarter_frame (quarter : string) (records : list record) : DataFrame :=
  let df := DataFrame_of records in
  if String.eqb quarter "EoS" && list_mem "Quarter" (columns df)
  then drop_column "Quarter" df else df.

(** Strictly before, in the order of cells. *)
Definition value_lt (a b : value) : Prop := value_cmp a b = Lt.





(** The number of records of a dataset. *)
Definition count_records (data : dataset) : nat :=
  fold_right Nat.add 0%nat (map (fun qr : string * dict value record => List.length (snd qr)) data).

(** ** The totals of the form *)

(** [if val.isdigit(): total += int(val)] for the stripped text of a
    field; [int] of a text of digits is its value. *)
Definition add_if_digits (total : Z) (text : string) : Z :=
  let val := strip text in
  if isdigit val then total + digits_value 0 val else total.

(** The form once [update_headcount_totals] has set the two headcount
    totals from the Headcount fields. *)
Definition update_headcount_totals (form : Form) : Form :=
  let total_rsp :=
    fold_left (fun total floor => add_if_digits total (rsp_entries form floor "Headcount"))
      RSP_FLOORS 0 in
  let total_non_rsp := add_if_digits 0 (dock_entries form "Headcount") in
  let total_non_rsp := add_if_digits total_non_rsp (dmg_entries form "Headcount") in
  let total_non_rsp :=
    fold_left (fun total role => add_if_digits total (other_entries form role))
      OTHER_ROLES total_non_rsp in
  mkForm (selected_quarter form) (rsp_entries form) (dock_entries form)
    (dmg_entries form) (other_entries form)
    (str_of_int total_rsp) (str_of_int total_non_rsp).

(** [update_rsp_total]: the text shown as the total of Piles. *)
Definition update_rsp_total (form : Form) : string :=
  str_of_int
    (fold_left (fun total floor => add_if_digits total (rsp_entries form floor "Piles"))
       RSP_FLOORS 0).

(** The count a cell holds; what is not an int counts for nothing. *)
Definition int_or_zero (v : value) : Z :=
  match v with VInt n => n | _ => 0 end.

(** The sum of a field over records. *)
Definition sum_of (field : string) (records : list record) : Z :=
  fold_right Z.add 0 (map (fun r => int_or_zero (cell r field)) records).

(** The records of the RSP floors: those with a Floor. *)
Definition floor_records (records : list record) : list record :=
  filter (fun r => negb (value_eqb (cell r "Floor") (VStr ""))) records.

(** The roles of the records that hold totals. *)
Definition TOTAL_ROLES : list value :=
  [VStr "RSP (Total)"; VStr "RSP (Headcount Total)"; VStr "Non-RSP (Headcount Total)"].

(** The records of the roles outside the RSP floors, totals apart. *)
Definition non_rsp_records (records : list record) : list record :=
  filter (fun r => value_eqb (cell r "Floor") (VStr "")
                   && negb (list_mem (cell r "Role") TOTAL_ROLES)) records.

(** A form with counts typed in, one of them padded with blanks and
    one that is no number. *)
Definition piles_form : Form :=
  mkForm "Q1"
    (fun floor metric =>
       if String.eqb metric "Piles" then
         if String.eqb floor "A2" then "3"
         else if String.eqb floor "A3" then " 4 "
         else if String.eqb floor "B2" then "x" else ""
       else if String.eqb metric "Headcount" then "2" else "")
    (fun metric => if String.eqb metric "Headcount" then "5" else "")
    (fun _ => "") (fun _ => "1") "0" "0".

(** ** Column widths *)

(** [if cell.value]: an empty cell, a zero and an empty text are false. *)
Definition xcell_truthy (c : xcell) : bool :=
  match c with
  | XEmpty => false
  | XInt n => negb (n =? 0)
  | XStr s => negb (String.eqb s "")
  end.

(** [str(cell.value)] *)
Definition xcell_str (c : xcell) : string :=
  match c with
  | XEmpty => "None"
  | XInt n => str_of_int n
  | XStr s => s
  end.

(** The width [adjust_excel_columns] gives a column with these cells. *)
Definition column_width (col : list xcell) : Z :=
  fold_left
    (fun max_length c =>
       if xcell_truthy c
       then Z.max max_length (Z.of_nat (String.length (xcell_str c)))
       else max_length)
    col 0 + 2.

(** ** The trend graph *)

(** What [show_graphs] ends in. *)
Inductive graph_outcome : Type :=
| nothing_shown
| plotted (ticks : list string) (y : list Z)
| type_error.

(** [any(x)] for a bool [x]: a bool cannot be iterated, so this is the
    [TypeError]. *)
Definition any_of_bool (x : bool) : option bool := None.

(** [[q for q in qs if q in shift_data and any("RSP (Total)" in
    shift_data[q])]]; [None] is the exception. *)
Fixpoint available_quarters (data : dataset) (qs : list string)
  : option (list string) :=
  match qs with
  | [] => Some []
  | q :: qs' =>
      match
        match dict_get q data with
        | Some roles => any_of_bool (dict_mem (VStr "RSP (Total)") roles)
        | None => Some false
        end
      with
      | Some keep =>
          option_map (fun rest => if keep : bool then q :: rest else rest)
            (available_quarters data qs')
      | None => None
      end
  end.

(** [int(shift_data[q]["RSP (Total)"].get("Piles", 0))], 0 when that
    raises. *)
Definition total_piles_of (data : dataset) (q : string) : Z :=
  match dict_get q data with
  | Some roles =>
      match dict_get (VStr "RSP (Total)") roles with
      | Some rec =>
          match dict_get "Piles" rec with
          | Some (VInt n) => n
          | Some (VStr s) => match py_int s with Some n => n | None => 0 end
          | Some _ => 0
          | None => 0
          end
      | None => 0
      end
  | None => 0
  end.

Definition show_graphs (data : dataset) : graph_outcome :=
  match available_quarters data QUARTERS with
  | None => type_error
  | Some [] => nothing_shown
  | Some qs => plotted qs (map (total_piles_of data) qs)
  end.

(** ** Text without blanks around it *)

(** The text is empty or starts with a character that is no blank. *)
Definition starts_clean (s : string) : Prop :=
  match s with
  | String c _ => is_space c = false
  | EmptyString => True
  end.

(** ** Laws *)

Unset Implicit Arguments.

(** Key equality decides equality. *)
Class KeyLaws (K : Type) `{Key K} : Prop := {
  key_eqb_eq : forall a b : K, key_eqb a b = true <-> a = b
}.
Arguments KeyLaws K {_}.

(** A comparison that defines a total preorder. *)
Record CmpLaws {A : Type} (cmp : A -> A -> comparison) : Prop := {
  cmp_antisym : forall a b, cmp a b = CompOpp (cmp b a);
  cmp_eq_l : forall a b c, cmp a b = Eq -> cmp a c = cmp b c;
  cmp_lt_trans : forall a b c, cmp a b = Lt -> cmp b c = Lt -> cmp a c = Lt
}.

(** * Properties *)

(** ** Keys and dictionaries *)


Lemma value_eqb_spec (a b : value) : reflect (a = b) (value_eqb a b).
Proof.
  destruct a as [| |x|s], b as [| |y|t]; simpl;
    try (constructor; congruence).
  - destruct (Z.eqb_spec x y); constructor; congruence.
  - destruct (String.eqb_spec s t); constructor; congruence.
Qed.

#[export] Instance string_KeyLaws : KeyLaws string.
Proof. constructor. exact String.eqb_eq. Qed.

#[export] Instance value_KeyLaws : KeyLaws value.
Proof.
  constructor. intros a b. simpl.
  destruct (value_eqb_spec a b); intuition congruence.
Qed.

Section DictFacts.
Context {K V : Type} `{KeyLaws K}.

Lemma key_eqb_spec (a b : K) : reflect (a = b) (key_eqb a b).
Proof. apply iff_reflect. symmetry. apply key_eqb_eq. Qed.

Lemma key_eqb_refl (k : K) : key_eqb k k = true.
Proof. destruct (key_eqb_spec k k); congruence. Qed.

Lemma key_eqb_neq (a b : K) : a <> b -> key_eqb a b = false.
Proof. destruct (key_eqb_spec a b); congruence. Qed.

Lemma dict_get_set_same (k : K) (v : V) (d : dict K V) :
  dict_get k (dict_set k v d) = Some v.
Proof.
  induction d as [|[k' v'] d IH]; simpl.
  - now rewrite key_eqb_refl.
  - destruct (key_eqb_spec k k') as [->|Hne]; simpl.
    + now rewrite key_eqb_refl.
    + now rewrite (key_eqb_neq _ _ Hne).
Qed.

Lemma dict_get_set_other (k k' : K) (v : V) (d : dict K V) :
  k' <> k -> dict_get k' (dict_set k v d) = dict_get k' d.
Proof.
  intros Hne. induction d as [|[k0 v0] d IH]; simpl.
  - now rewrite (key_eqb_neq _ _ Hne).
  - destruct (key_eqb_spec k k0) as [->|Hk]; simpl.
    + now rewrite (key_eqb_neq _ _ Hne).
    + now rewrite IH.
Qed.

Lemma dict_set_twice (k : K) (v v' : V) (d : dict K V) :
  dict_set k v (dict_set k v' d) = dict_set k v d.
Proof.
  induction d as [|[k0 v0] d IH]; simpl.
  - now rewrite key_eqb_refl.
  - destruct (key_eqb_spec k k0) as [->|Hk]; simpl.
    + now rewrite key_eqb_refl.
    + rewrite (key_eqb_neq _ _ Hk). now f_equal.
Qed.

Lemma dict_get_In (k : K) (v : V) (d : dict K V) :
  dict_get k d = Some v -> In (k, v) d.
Proof.
  induction d as [|[k0 v0] d IH]; simpl; [discriminate|].
  destruct (key_eqb_spec k k0) as [->|Hk].
  - intros [= ->]. now left.
  - intros Hg. right. now apply IH.
Qed.

Lemma dict_mem_keys (k : K) (d : dict K V) :
  dict_mem k d = list_mem k (dict_keys d).
Proof.
  unfold dict_mem, list_mem, dict_keys.
  induction d as [|[k0 v0] d IH]; simpl; [reflexivity|].
  destruct (key_eqb k k0); simpl; [reflexivity|exact IH].
Qed.

Lemma list_mem_In (k : K) (l : list K) : list_mem k l = true <-> In k l.
Proof.
  unfold list_mem. rewrite existsb_exists. split.
  - intros (x & Hin & Hx). destruct (key_eqb_spec k x); congruence.
  - intros Hin. exists k. split; [assumption|apply key_eqb_refl].
Qed.

End DictFacts.

(** ** The delta engine *)

Lemma In_delta_of rt role data1 data2 key row :
  In row (delta_of rt role data1 data2 key) <->
  exists old_val new_val,
    coerce rt data1 key = Some old_val /\
    coerce rt data2 key = Some new_val /\
    row = mkDelta role key old_val new_val (py_sub new_val old_val)
            (guarded_percent old_val (py_sub new_val old_val)).
Proof.
  unfold delta_of, guarded_percent.
  destruct (coerce rt data1 key) as [o|], (coerce rt data2 key) as [n|]; simpl;
    split; try tauto; try (intros (? & ? & ? & ? & ?); discriminate).
  - intros [<-|[]]. now exists o, n.
  - intros (o' & n' & [= <-] & [= <-] & ->). now left.
Qed.

Lemma In_role_deltas rt roles1 roles2 role row :
  In row (role_deltas rt roles1 roles2 role) <->
  exists data1 data2 key,
    dict_get role roles1 = Some data1 /\
    dict_get role roles2 = Some data2 /\
    In key (dict_keys data1) /\
    In row (delta_of rt role data1 data2 key).
Proof.
  unfold role_deltas.
  destruct (dict_get role roles1) as [d1|], (dict_get role roles2) as [d2|];
    simpl; split; try tauto;
    try (intros (? & ? & ? & ? & ? & ?); discriminate).
  - rewrite in_flat_map. intros (key & Hk & Hr). now exists d1, d2, key.
  - intros (d1' & d2' & key & [= <-] & [= <-] & Hk & Hr).
    rewrite in_flat_map. now exists key.
Qed.

Lemma In_dedup (v : value) (l : list value) : In v (dedup l) <-> In v l.
Proof.
  induction l as [|u l IH]; simpl; [tauto|].
  rewrite filter_In, IH.
  destruct (value_eqb_spec v u) as [->|Hne]; simpl; intuition congruence.
Qed.

Lemma NoDup_filter {A : Type} (p : A -> bool) (l : list A) :
  NoDup l -> NoDup (filter p l).
Proof.
  induction 1 as [|x l Hx Hl IH]; simpl; [constructor|].
  destruct (p x); [constructor|]; try assumption.
  rewrite filter_In. tauto.
Qed.

Lemma NoDup_dedup (l : list value) : NoDup (dedup l).
Proof.
  induction l as [|u l IH]; simpl; constructor.
  - rewrite filter_In. intros [_ Hu].
    destruct (value_eqb_spec u u); [discriminate|congruence].
  - now apply NoDup_filter.
Qed.

Lemma In_common_roles rt roles1 roles2 role :
  set_iter_ok rt ->
  (In role (common_roles rt roles1 roles2) <->
   In role (dict_keys roles1) /\ dict_mem role roles2 = true).
Proof.
  intros Hok. unfold common_roles.
  split.
  - intros Hin. apply (Permutation_in _ (Hok _)) in Hin.
    now rewrite In_dedup, filter_In in Hin.
  - intros Hin. apply (Permutation_in _ (Permutation_sym (Hok _))).
    now rewrite In_dedup, filter_In.
Qed.

Lemma set_iter_ok_demo : set_iter_ok demo_runtime.
Proof. intros l. apply Permutation_refl. Qed.

Lemma set_iter_ok_demo_rev : set_iter_ok demo_runtime_rev.
Proof. intros l. simpl. apply Permutation_sym, Permutation_rev. Qed.

(** The table when both quarters are stored. *)
Lemma compute_deltas_rows rt data q1 q2 roles1 roles2 :
  dict_get q1 data = Some roles1 ->
  dict_get q2 data = Some roles2 ->
  snd (compute_deltas_between rt data q1 q2) =
  flat_map (role_deltas rt roles1 roles2) (common_roles rt roles1 roles2).
Proof.
  intros H1 H2. unfold compute_deltas_between. now rewrite H1, H2.
Qed.

(** Every row of the table comes from one common role and one key of
    that role's record in the first quarter, both of whose values
    convert. *)
Lemma In_compute_deltas rt data q1 q2 row :
  In row (snd (compute_deltas_between rt data q1 q2)) ->
  exists roles1 roles2 data1 data2 old_val new_val,
    dict_get q1 data = Some roles1 /\
    dict_get q2 data = Some roles2 /\
    In (Role row) (common_roles rt roles1 roles2) /\
    dict_get (Role row) roles1 = Some data1 /\
    dict_get (Role row) roles2 = Some data2 /\
    In (Metric row) (dict_keys data1) /\
    coerce rt data1 (Metric row) = Some old_val /\
    coerce rt data2 (Metric row) = Some new_val /\
    row = mkDelta (Role row) (Metric row) old_val new_val
            (py_sub new_val old_val)
            (guarded_percent old_val (py_sub new_val old_val)).
Proof.
  unfold compute_deltas_between.
  destruct (dict_get q1 data) as [roles1|] eqn:H1; [|intros []].
  destruct (dict_get q2 data) as [roles2|] eqn:H2; [|intros []].
  simpl. rewrite in_flat_map. intros (role & Hrole & Hrow).
  apply In_role_deltas in Hrow.
  destruct Hrow as (data1 & data2 & key & Hd1 & Hd2 & Hkey & Hrow).
  apply In_delta_of in Hrow. destruct Hrow as (o & n & Ho & Hn & ->).
  simpl. exists roles1, roles2, data1, data2, o, n. repeat split; assumption.
Qed.

(** A converted value is the int 0 or a float. *)
Lemma coerce_cases (rt : PyRuntime) (data : record) (key : string) (x : pynum) :
  coerce rt data key = Some x -> x = PyInt 0 \/ exists f, x = PyFloat f.
Proof.
  unfold coerce.
  destruct (dict_get key data) as [v|]; [|intros [= <-]; now left].
  destruct v; try (intros [= <-]; now left);
    (destruct (py_float rt _) as [f|]; simpl;
     [intros [= <-]; right; now exists f|discriminate]).
Qed.

(** The floats of the two int literals of the loop. *)
Lemma Z2float_0 : Z2float 0 = 0%float.
Proof. vm_compute. reflexivity. Qed.

Lemma Z2float_100 : Z2float 100 = 100%float.
Proof. vm_compute. reflexivity. Qed.

(** C5. Zero-division guard of the delta engine: every row of the
    difference table has Difference = New Value - Old Value, and its
    Percent Change is Difference / Old Value * 100 when the old value is
    not zero and exactly 0 when it is; and every comparable pair (a
    common role and a key of its first-quarter record whose two values
    convert) has such a row.  The arithmetic is that of binary64
    floats: for float values [o] and [n] the Difference is the float
    [n - o] and the Percent Change the float [(n - o) / o * 100], an int
    0 standing for the float 0 beside a float, and two int 0 giving the
    int 0. *)
Theorem delta_zero_division_guard (rt : PyRuntime) (data : dataset) (q1 q2 : string) :
  set_iter_ok rt ->
  (forall row, In row (snd (compute_deltas_between rt data q1 q2)) ->
     Difference row = py_sub (New_Value row) (Old_Value row) /\
     (py_ne0 (Old_Value row) = true ->
      Percent_Change row = py_mul (py_div (Difference row) (Old_Value row)) (PyInt 100)) /\
     (py_ne0 (Old_Value row) = false -> Percent_Change row = PyInt 0) /\
     match Old_Value row, New_Value row with
     | PyFloat o, PyFloat n =>
         Difference row = PyFloat (n - o)%float /\
         Percent_Change row =
           if PrimFloat.eqb o 0%float then PyInt 0
           else PyFloat ((n - o) / o * 100)%float
     | PyFloat o, PyInt n =>
         n = 0 /\
         Difference row = PyFloat (0 - o)%float /\
         Percent_Change row =
           if PrimFloat.eqb o 0%float then PyInt 0
           else PyFloat ((0 - o) / o * 100)%float
     | PyInt o, PyFloat n =>
         o = 0 /\
         Difference row = PyFloat (n - 0)%float /\
         Percent_Change row = PyInt 0
     | PyInt o, PyInt n =>
         o = 0 /\ n = 0 /\
         Difference row = PyInt 0 /\ Percent_Change row = PyInt 0
     end) /\
  (forall roles1 roles2 role data1 data2 key old_val new_val,
     dict_get q1 data = Some roles1 ->
     dict_get q2 data = Some roles2 ->
     In role (dict_keys roles1) ->
     dict_get role roles1 = Some data1 ->
     dict_get role roles2 = Some data2 ->
     In key (dict_keys data1) ->
     coerce rt data1 key = Some old_val ->
     coerce rt data2 key = Some new_val ->
     In (mkDelta role key old_val new_val (py_sub new_val old_val)
           (if py_ne0 old_val
            then py_mul (py_div (py_sub new_val old_val) old_val) (PyInt 100)
            else PyInt 0))
        (snd (compute_deltas_between rt data q1 q2))).
Proof.
  intros Hok. split.
  - intros row Hin. apply In_compute_deltas in Hin.
    destruct Hin as (r1 & r2 & d1 & d2 & o & n & _ & _ & _ & _ & _ & _ & Ho & Hn & ->).
    unfold guarded_percent. cbn [Difference Percent_Change Old_Value New_Value].
    split; [reflexivity|].
    split; [intros ->; reflexivity|].
    split; [intros ->; reflexivity|].
    destruct (coerce_cases rt d1 _ o Ho) as [->|(fo & ->)];
      destruct (coerce_cases rt d2 _ n Hn) as [->|(fn & ->)].
    + repeat split.
    + cbn [py_sub as_float py_ne0 Z.eqb negb]. rewrite Z2float_0. repeat split.
    + cbn [py_sub as_float py_ne0 py_div py_mul]. rewrite Z2float_0, Z2float_100.
      split; [reflexivity|]. split; [reflexivity|].
      now destruct (PrimFloat.eqb fo 0).
    + cbn [py_sub as_float py_ne0 py_div py_mul]. rewrite Z2float_100.
      split; [reflexivity|].
      now destruct (PrimFloat.eqb fo 0).
  - intros roles1 roles2 role data1 data2 key o n H1 H2 Hrole Hd1 Hd2 Hkey Ho Hn.
    rewrite (compute_deltas_rows rt data q1 q2 roles1 roles2 H1 H2).
    rewrite in_flat_map. exists role. split.
    + apply In_common_roles; [assumption|]. split; [assumption|].
      unfold dict_mem. now rewrite Hd2.
    + apply In_role_deltas. exists data1, data2, key.
      repeat split; try assumption.
      apply In_delta_of. now exists o, n.
Qed.

Lemma delta_zero_division_guard_witness :
  set_iter_ok demo_runtime /\
  snd (compute_deltas_between demo_runtime zero_to_five "SoS" "Q1") =
    [mkDelta (VStr "Dock") "Headcount" (PyFloat 0) (PyFloat 5) (PyFloat 5) (PyInt 0)] /\
  snd (compute_deltas_between demo_runtime ten_to_twelve "SoS" "Q1") =
    [mkDelta (VStr "Dock") "Headcount" (PyFloat 10) (PyFloat 12) (PyFloat 2) (PyFloat 20)] /\
  forall row,
    In row (snd (compute_deltas_between demo_runtime ten_to_twelve "SoS" "Q1")) ->
    Difference row = py_sub (New_Value row) (Old_Value row) /\
    (py_ne0 (Old_Value row) = true ->
     Percent_Change row = py_mul (py_div (Difference row) (Old_Value row)) (PyInt 100)) /\
    (py_ne0 (Old_Value row) = false -> Percent_Change row = PyInt 0) /\
    match Old_Value row, New_Value row with
    | PyFloat o, PyFloat n =>
        Difference row = PyFloat (n - o)%float /\
        Percent_Change row =
          if PrimFloat.eqb o 0%float then PyInt 0
          else PyFloat ((n - o) / o * 100)%float
    | PyFloat o, PyInt n =>
        n = 0 /\
        Difference row = PyFloat (0 - o)%float /\
        Percent_Change row =
          if PrimFloat.eqb o 0%float then PyInt 0
          else PyFloat ((0 - o) / o * 100)%float
    | PyInt o, PyFloat n =>
        o = 0 /\
        Difference row = PyFloat (n - 0)%float /\
        Percent_Change row = PyInt 0
    | PyInt o, PyInt n =>
        o = 0 /\ n = 0 /\
        Difference row = PyInt 0 /\ Percent_Change row = PyInt 0
    end.
Proof.
  split; [exact set_iter_ok_demo|].
  split; [vm_compute; reflexivity|].
  split; [vm_compute; reflexivity|].
  exact (proj1 (delta_zero_division_guard demo_runtime ten_to_twelve "SoS" "Q1" set_iter_ok_demo)).
Defined.

(** The example of the specification: 10 to 12 is +2 and +20.0 %. *)
Example delta_ten_to_twelve :
  compute_deltas_between demo_runtime
    [("SoS", [(VStr "Dock", [("Headcount", VInt 10)])]);
     ("Q1", [(VStr "Dock", [("Headcount", VInt 12)])])] "SoS" "Q1" =
  ("Dock - Headcount: 10.0 -> 12.0 | Diff: 2.0 | 20.0%",
   [mkDelta (VStr "Dock") "Headcount" (PyFloat 10) (PyFloat 12) (PyFloat 2) (PyFloat 20)]).
Proof. vm_compute. reflexivity. Qed.

(** C6. When either quarter has no entry in the dataset, the delta
    engine returns the fixed message and the empty table; being a total
    function, it raises nothing. *)
Theorem compute_deltas_absent_quarter (rt : PyRuntime) (data : dataset) (q1 q2 : string) :
  dict_mem q1 data = false \/ dict_mem q2 data = false ->
  compute_deltas_between rt data q1 q2 =
  ("One or both quarters are not available.", []).
Proof.
  unfold dict_mem, compute_deltas_between.
  destruct (dict_get q1 data), (dict_get q2 data); intros [H|H];
    try discriminate; reflexivity.
Qed.

Lemma compute_deltas_absent_quarter_witness :
  (dict_mem "SoS" zero_to_five = false \/ dict_mem "Q3" zero_to_five = false) /\
  compute_deltas_between demo_runtime zero_to_five "SoS" "Q3" =
  ("One or both quarters are not available.", []).
Proof.
  split.
  - right. reflexivity.
  - apply compute_deltas_absent_quarter. right. reflexivity.
Defined.

(** Runtimes with the same conversions compute the same rows for a
    role, and runtimes that print alike write the same line for a row. *)
Lemma role_deltas_same_builtins rt1 rt2 roles1 roles2 role :
  float_of_str rt1 = float_of_str rt2 ->
  role_deltas rt1 roles1 roles2 role = role_deltas rt2 roles1 roles2 role.
Proof.
  intros Hf. unfold role_deltas.
  destruct (dict_get role roles1) as [d1|]; [|reflexivity].
  destruct (dict_get role roles2) as [d2|]; [|reflexivity].
  apply flat_map_ext. intros key.
  unfold delta_of, coerce, py_float. now rewrite Hf.
Qed.

Lemma summary_line_same_builtins rt1 rt2 row :
  same_builtins rt1 rt2 -> summary_line rt1 row = summary_line rt2 row.
Proof.
  intros (_ & Hs & Hf). unfold summary_line, str_num. now rewrite Hs, Hf.
Qed.

(** Against C9 as stated: two runs on the same dataset and quarters,
    whose runtimes convert and print alike and differ only in the order
    in which the set of common roles is iterated, return different
    summaries and tables. *)
Lemma delta_order_follows_set_order :
  same_builtins demo_runtime demo_runtime_rev /\
  set_iter_ok demo_runtime /\
  set_iter_ok demo_runtime_rev /\
  fst (compute_deltas_between demo_runtime two_roles "SoS" "Q1") <>
  fst (compute_deltas_between demo_runtime_rev two_roles "SoS" "Q1") /\
  snd (compute_deltas_between demo_runtime two_roles "SoS" "Q1") <>
  snd (compute_deltas_between demo_runtime_rev two_roles "SoS" "Q1").
Proof.
  split; [repeat split|].
  split; [exact set_iter_ok_demo|].
  split; [exact set_iter_ok_demo_rev|].
  split; vm_compute; discriminate.
Qed.

(** C9, amended. The code iterates the set of common roles in the
    order the set yields them and fixes no order of its own.  The table
    is the concatenation, in that order, of one block per common role,
    each block in the key order of the role's first-quarter record; so
    two runs whose sets iterate in the same order return the same
    summary and table, and two runs whose sets iterate differently
    return the same rows and summary lines up to a permutation. *)
Theorem delta_rows_up_to_set_order (rt1 rt2 : PyRuntime) (data : dataset) (q1 q2 : string) :
  same_builtins rt1 rt2 ->
  set_iter_ok rt1 ->
  set_iter_ok rt2 ->
  (forall roles1 roles2,
     dict_get q1 data = Some roles1 ->
     dict_get q2 data = Some roles2 ->
     snd (compute_deltas_between rt1 data q1 q2) =
     flat_map (role_deltas rt1 roles1 roles2) (common_roles rt1 roles1 roles2)) /\
  ((forall l, set_iter rt1 l = set_iter rt2 l) ->
   compute_deltas_between rt1 data q1 q2 = compute_deltas_between rt2 data q1 q2) /\
  Permutation (snd (compute_deltas_between rt1 data q1 q2))
              (snd (compute_deltas_between rt2 data q1 q2)) /\
  Permutation
    (map (summary_line rt1) (snd (compute_deltas_between rt1 data q1 q2)))
    (map (summary_line rt2) (snd (compute_deltas_between rt2 data q1 q2))).
Proof.
  intros Hsame Hok1 Hok2.
  assert (Hperm : Permutation (snd (compute_deltas_between rt1 data q1 q2))
                              (snd (compute_deltas_between rt2 data q1 q2))).
  { unfold compute_deltas_between.
    destruct (dict_get q1 data) as [roles1|]; [|apply Permutation_refl].
    destruct (dict_get q2 data) as [roles2|]; [|apply Permutation_refl].
    simpl.
    rewrite (flat_map_ext _ _
               (fun role => role_deltas_same_builtins rt1 rt2 roles1 roles2 role (proj1 Hsame))).
    apply Permutation_flat_map. unfold common_roles.
    eapply Permutation_trans; [apply Hok1|].
    apply Permutation_sym, Hok2. }
  split; [|split; [|split]].
  - intros roles1 roles2 H1 H2. now apply compute_deltas_rows.
  - intros Hiter. unfold compute_deltas_between.
    destruct (dict_get q1 data) as [roles1|]; [|reflexivity].
    destruct (dict_get q2 data) as [roles2|]; [|reflexivity].
    unfold common_roles. rewrite Hiter.
    rewrite (flat_map_ext _ _
               (fun role => role_deltas_same_builtins rt1 rt2 roles1 roles2 role (proj1 Hsame))).
    rewrite (map_ext _ _ (fun row => summary_line_same_builtins rt1 rt2 row Hsame)).
    reflexivity.
  - exact Hperm.
  - rewrite (map_ext _ _ (fun row => summary_line_same_builtins rt1 rt2 row Hsame)).
    now apply Permutation_map.
Qed.

Lemma delta_rows_up_to_set_order_witness :
  same_builtins demo_runtime demo_runtime_rev /\
  set_iter_ok demo_runtime /\
  set_iter_ok demo_runtime_rev /\
  Permutation (snd (compute_deltas_between demo_runtime two_roles "SoS" "Q1"))
              (snd (compute_deltas_between demo_runtime_rev two_roles "SoS" "Q1")).
Proof.
  split; [repeat split|].
  split; [exact set_iter_ok_demo|].
  split; [exact set_iter_ok_demo_rev|].
  refine (proj1 (proj2 (proj2
    (delta_rows_up_to_set_order demo_runtime demo_runtime_rev two_roles "SoS" "Q1" _
       set_iter_ok_demo set_iter_ok_demo_rev)))).
  repeat split.
Defined.

(** ** Sheets and frames *)

Lemma to_xcell_of_xcell (v : value) : to_xcell (of_xcell (to_xcell v)) = to_xcell v.
Proof. destruct v as [| |n|[|c s]]; reflexivity. Qed.

Lemma of_xcell_to_xcell (x : xcell) : of_xcell (to_xcell (of_xcell x)) = of_xcell x.
Proof. destruct x as [|n|[|c s]]; reflexivity. Qed.

Lemma dict_get_combine_map {V : Type} (f : string -> V) (c : string) (l : list string) :
  In c l -> dict_get c (combine l (map f l)) = Some (f c).
Proof.
  induction l as [|k l IH]; simpl; [tauto|].
  destruct (String.eqb_spec c k) as [->|Hne]; [reflexivity|].
  intros [Hk|Hin]; [congruence|now apply IH].
Qed.

Lemma dict_get_map_pair {V : Type} (f : string -> V) (c : string) (l : list string) :
  dict_get c (map (fun k => (k, f k)) l) = if list_mem c l then Some (f c) else None.
Proof.
  induction l as [|k l IH]; simpl; [reflexivity|].
  destruct (String.eqb_spec c k) as [->|Hne]; simpl; [reflexivity|exact IH].
Qed.

(** Reading back what was written and writing it again changes
    nothing. *)
Lemma to_excel_read_sheet (df : DataFrame) :
  to_excel (read_sheet (to_excel df)) = to_excel df.
Proof.
  unfold to_excel. destruct (columns df) as [|c0 cs] eqn:Hc; [reflexivity|].
  set (cols := c0 :: cs). unfold read_sheet. cbn [header body columns rows].
  fold cols. unfold cols at 1. f_equal.
  rewrite !map_map. apply map_ext. intros r.
  apply map_ext_in. intros c Hin. unfold cell at 1.
  rewrite map_map.
  rewrite (dict_get_combine_map (fun c => of_xcell (to_xcell (cell r c))) c cols Hin).
  apply to_xcell_of_xcell.
Qed.

Lemma header_to_excel (df : DataFrame) : header (to_excel df) = columns df.
Proof. unfold to_excel. now destruct (columns df). Qed.

Lemma list_mem_filter_out (c : string) (l : list string) :
  list_mem c (filter (fun k => negb (String.eqb k c)) l) = false.
Proof.
  induction l as [|k l IH]; simpl; [reflexivity|].
  destruct (String.eqb_spec k c) as [->|Hne]; simpl; [exact IH|].
  rewrite IH. destruct (String.eqb_spec c k); [congruence|reflexivity].
Qed.

Lemma without_Quarter_columns (df : DataFrame) :
  list_mem "Quarter" (columns (without_Quarter df)) = false.
Proof.
  unfold without_Quarter.
  destruct (list_mem "Quarter" (columns df)) eqn:Hm; [|exact Hm].
  apply list_mem_filter_out.
Qed.

Lemma without_Quarter_fixed (df : DataFrame) :
  list_mem "Quarter" (columns df) = false -> without_Quarter df = df.
Proof. unfold without_Quarter. now intros ->. Qed.

(** ** The EoS resolver *)

Lemma aggregate_data_EoS (w : World) :
  aggregate_data "EoS" w =
  match xlsx w with
  | Some wb =>
      match dict_get "EoS" wb with
      | Some s =>
          (Ok tt,
           mkWorld (shift_data w) (json_file w)
             (Some (dict_set "EoS" (to_excel (without_Quarter (read_sheet s))) wb))
             (trace w ++ [sheet_written "EoS"]))
      | None => (Raise (ValueError "EoS"), w)
      end
  | None => (Raise FileNotFoundError, w)
  end.
Proof.
  unfold aggregate_data. simpl. unfold bind, read_excel, write_sheet.
  destruct (xlsx w) as [wb|] eqn:Hx; [|reflexivity].
  destruct (dict_get "EoS" wb) as [s|]; [|reflexivity].
  rewrite Hx. reflexivity.
Qed.

(** C8. The EoS resolver called for the EoS quarter is idempotent: a
    second run in a row leaves the EoS sheet, and the whole workbook, as
    the first run left them, and ends as the first did. *)
Theorem aggregate_data_EoS_idempotent (w : World) :
  let w1 := snd (aggregate_data "EoS" w) in
  let w2 := snd (aggregate_data "EoS" w1) in
  sheet_of w2 "EoS" = sheet_of w1 "EoS" /\
  xlsx w2 = xlsx w1 /\
  fst (aggregate_data "EoS" w1) = fst (aggregate_data "EoS" w).
Proof.
  cbv zeta. rewrite (aggregate_data_EoS w).
  destruct (xlsx w) as [wb|] eqn:Hx.
  - destruct (dict_get "EoS" wb) as [s|] eqn:Hs.
    + cbn [snd fst]. rewrite aggregate_data_EoS. cbn [xlsx shift_data json_file trace].
      rewrite dict_get_set_same. cbn [snd fst xlsx].
      set (d := without_Quarter (read_sheet s)).
      assert (Hfix : to_excel (without_Quarter (read_sheet (to_excel d))) = to_excel d).
      { rewrite without_Quarter_fixed; [apply to_excel_read_sheet|].
        unfold read_sheet. cbn [columns]. rewrite header_to_excel.
        apply without_Quarter_columns. }
      rewrite Hfix, dict_set_twice. unfold sheet_of. cbn [xlsx].
      repeat split; reflexivity.
    + cbn [snd fst]. rewrite aggregate_data_EoS. rewrite Hx. cbv iota beta.
      rewrite Hs. cbn [snd fst]. rewrite ?Hx. repeat split; reflexivity.
  - cbn [snd fst]. rewrite aggregate_data_EoS. rewrite Hx. cbn [snd fst].
    rewrite ?Hx. repeat split; reflexivity.
Qed.

(** A run that rewrites the sheet: the Quarter column goes, the other
    cells stay. *)
Example aggregate_data_EoS_run :
  snd (aggregate_data "EoS"
         (mkWorld [] None
            (Some [("EoS", mkSheet ["Quarter"; "Role"; "Headcount"]
                             [[XStr "EoS"; XStr "Dock"; XInt 5]])]) [])) =
  mkWorld [] None
    (Some [("EoS", mkSheet ["Role"; "Headcount"] [[XStr "Dock"; XInt 5]])])
    [sheet_written "EoS"].
Proof. reflexivity. Qed.

Lemma read_existing_frames (names : list string) (w : World) (wb : Workbook) :
  xlsx w = Some wb ->
  read_existing (dict_keys wb) names w = (Ok (frames_of wb names), w).
Proof.
  intros Hx. induction names as [|name names IH]; [reflexivity|].
  cbn [read_existing frames_of flat_map].
  rewrite <- dict_mem_keys. unfold dict_mem.
  destruct (dict_get name wb) as [s|] eqn:Hs.
  - unfold bind at 1. unfold read_excel. rewrite Hx, Hs.
    unfold bind. rewrite IH. reflexivity.
  - exact IH.
Qed.

(** What the resolver does for a quarter other than EoS when the
    workbook exists. *)
Lemma aggregate_data_other (q : string) (w : World) (wb : Workbook) :
  q <> "EoS" ->
  xlsx w = Some wb ->
  aggregate_data q w =
  match frames_of wb CONTRIBUTING with
  | [] => (Ok tt, w)
  | dataframes =>
      match groupby_agg "Role" (concat dataframes) with
      | Ok agg_df =>
          (Ok tt,
           mkWorld (shift_data w) (json_file w)
             (Some (dict_set "EoS" (to_excel agg_df) wb))
             (trace w ++ [sheet_written "EoS"]))
      | Raise _ =>
          (Ok tt,
           mkWorld (shift_data w) (json_file w) (xlsx w)
             (trace w ++ [showerror "Error"]))
      end
  end.
Proof.
  intros Hq Hx. unfold aggregate_data.
  destruct (String.eqb_spec q "EoS") as [|_]; [contradiction|].
  unfold try_except, bind at 1. unfold sheetnames. rewrite Hx.
  unfold bind at 1. rewrite (read_existing_frames _ w wb Hx).
  fold CONTRIBUTING.
  destruct (frames_of wb CONTRIBUTING) as [|df dfs]; [reflexivity|].
  unfold bind, lift.
  destruct (groupby_agg "Role" (concat (df :: dfs))) as [agg|e].
  - unfold write_sheet. rewrite Hx. reflexivity.
  - unfold emit. rewrite Hx. reflexivity.
Qed.

(** C10. When the resolver runs for a quarter other than EoS and the
    workbook holds none of the sheets SoS, Q1, Q2, Q3, it returns
    normally and the world is exactly as before: nothing is written, no
    message is shown, the EoS sheet is as it was. *)
Theorem aggregate_data_nothing_to_add (q : string) (w : World) (wb : Workbook) :
  q <> "EoS" ->
  xlsx w = Some wb ->
  (forall name, In name CONTRIBUTING -> dict_mem name wb = false) ->
  aggregate_data q w = (Ok tt, w).
Proof.
  intros Hq Hx Hnone. rewrite (aggregate_data_other q w wb Hq Hx).
  assert (Hf : frames_of wb CONTRIBUTING = []).
  { unfold frames_of. induction CONTRIBUTING as [|name names IH]; [reflexivity|].
    simpl. specialize (Hnone name (or_introl eq_refl)) as Hn.
    unfold dict_mem in Hn. destruct (dict_get name wb); [discriminate|].
    apply IH. intros n Hin. apply Hnone. now right. }
  now rewrite Hf.
Qed.

Lemma aggregate_data_nothing_to_add_witness :
  "Q1" <> "EoS" /\
  (forall name, In name CONTRIBUTING -> dict_mem name eos_only = false) /\
  aggregate_data "Q1" (mkWorld [] None (Some eos_only) []) =
  (Ok tt, mkWorld [] None (Some eos_only) []).
Proof.
  assert (Hq : "Q1" <> "EoS") by discriminate.
  assert (Hnone : forall name, In name CONTRIBUTING -> dict_mem name eos_only = false).
  { intros name [<-|[<-|[<-|[<-|[]]]]]; reflexivity. }
  split; [exact Hq|]. split; [exact Hnone|].
  exact (aggregate_data_nothing_to_add "Q1" (mkWorld [] None (Some eos_only) [])
           eos_only Hq eq_refl Hnone).
Defined.

(** ** The durable store during a submission *)

Lemma store_untouched_refl (w : World) : store_untouched w w.
Proof. split; [reflexivity|]. split; [reflexivity|now left]. Qed.

Lemma store_untouched_trans (w1 w2 w3 : World) :
  store_untouched w1 w2 -> store_untouched w2 w3 -> store_untouched w1 w3.
Proof.
  intros (Hj1 & Ht1 & Hs1) (Hj2 & Ht2 & Hs2).
  split; [congruence|]. split; [congruence|].
  destruct Hs2 as [Hs2|Hs2].
  - rewrite Hs2. exact Hs1.
  - right. congruence.
Qed.

Lemma filter_not_json (tr : list event) (e : event) :
  is_json_written e = false ->
  filter is_json_written (tr ++ [e]) = filter is_json_written tr.
Proof. intros He. rewrite filter_app. simpl. rewrite He. apply app_nil_r. Qed.

Section Preserves.
Context (R : World -> World -> Prop).
Hypothesis R_refl : forall w, R w w.
Hypothesis R_trans : forall w1 w2 w3, R w1 w2 -> R w2 w3 -> R w1 w3.

Lemma preserves_ret {A : Type} (a : A) : preserves R (ret a).
Proof. intros w. apply R_refl. Qed.

Lemma preserves_raise {A : Type} (e : exn) : preserves R (raise (A:=A) e).
Proof. intros w. apply R_refl. Qed.

Lemma preserves_lift {A : Type} (r : result A) : preserves R (lift r).
Proof. intros w. apply R_refl. Qed.

Lemma preserves_bind {A B : Type} (m : M A) (f : A -> M B) :
  preserves R m -> (forall a, preserves R (f a)) -> preserves R (bind m f).
Proof.
  intros Hm Hf w. unfold bind. specialize (Hm w).
  destruct (m w) as [[a|e] w']; simpl in *.
  - eapply R_trans; [exact Hm|apply Hf].
  - exact Hm.
Qed.

Lemma preserves_try {A : Type} (m : M A) (h : exn -> M A) :
  preserves R m -> (forall e, preserves R (h e)) -> preserves R (try_except m h).
Proof.
  intros Hm Hh w. unfold try_except. specialize (Hm w).
  destruct (m w) as [[a|e] w']; simpl in *.
  - exact Hm.
  - eapply R_trans; [exact Hm|apply Hh].
Qed.

Lemma preserves_if {A : Type} (b : bool) (m1 m2 : M A) :
  preserves R m1 -> preserves R m2 -> preserves R (if b then m1 else m2).
Proof. now destruct b. Qed.

End Preserves.

Lemma store_emit (e : event) :
  is_json_written e = false -> preserves store_untouched (emit e).
Proof.
  intros He w. unfold emit, store_untouched. cbn.
  split; [reflexivity|]. split; [now apply filter_not_json|now left].
Qed.

Lemma store_read_excel (name : string) : preserves store_untouched (read_excel name).
Proof.
  intros w. unfold read_excel.
  destruct (xlsx w) as [wb|]; [destruct (dict_get name wb)|];
    apply store_untouched_refl.
Qed.

Lemma store_sheetnames : preserves store_untouched sheetnames.
Proof.
  intros w. unfold sheetnames. destruct (xlsx w); apply store_untouched_refl.
Qed.

Lemma store_write_sheet (df : DataFrame) (name : string) :
  preserves store_untouched (write_sheet df name).
Proof.
  intros w. unfold write_sheet. destruct (xlsx w); [|apply store_untouched_refl].
  unfold store_untouched. cbn.
  split; [reflexivity|]. split; [now apply filter_not_json|now left].
Qed.

Lemma store_load_data_from_json : preserves store_untouched load_data_from_json.
Proof.
  intros w. unfold load_data_from_json.
  destruct (json_file w) as [d|] eqn:Hj; [|apply store_untouched_refl].
  unfold store_untouched. cbn. rewrite ?Hj.
  split; [reflexivity|]. split; [reflexivity|now right].
Qed.

Lemma store_bind {A B : Type} (m : M A) (f : A -> M B) :
  preserves store_untouched m ->
  (forall a, preserves store_untouched (f a)) ->
  preserves store_untouched (bind m f).
Proof. apply preserves_bind. exact store_untouched_trans. Qed.

Lemma store_try {A : Type} (m : M A) (h : exn -> M A) :
  preserves store_untouched m ->
  (forall e, preserves store_untouched (h e)) ->
  preserves store_untouched (try_except m h).
Proof. apply preserves_try. exact store_untouched_trans. Qed.

Lemma store_ret {A : Type} (a : A) : preserves store_untouched (ret a).
Proof. apply preserves_ret. exact store_untouched_refl. Qed.

Lemma store_raise {A : Type} (e : exn) : preserves store_untouched (raise (A:=A) e).
Proof. apply preserves_raise. exact store_untouched_refl. Qed.

Lemma store_lift {A : Type} (r : result A) : preserves store_untouched (lift r).
Proof. apply preserves_lift. exact store_untouched_refl. Qed.

Create HintDb store.
#[local] Hint Resolve store_read_excel store_sheetnames store_write_sheet
  store_load_data_from_json store_ret store_raise store_lift : store.

Ltac store_step :=
  repeat first
    [ apply store_bind; [|intros]
    | apply store_try; [|intros]
    | apply preserves_if
    | apply store_emit; reflexivity
    | solve [auto with store] ].

Lemma store_read_existing (present names : list string) :
  preserves store_untouched (read_existing present names).
Proof.
  induction names as [|name names IH]; cbn [read_existing].
  - store_step.
  - destruct (list_mem name present); [|exact IH]. store_step.
Qed.

Lemma store_save_quarter_to_excel (quarter : string) (records : list record) :
  preserves store_untouched (save_quarter_to_excel quarter records).
Proof. unfold save_quarter_to_excel. store_step. Qed.

Lemma store_aggregate_data (q : string) : preserves store_untouched (aggregate_data q).
Proof.
  unfold aggregate_data. destruct (String.eqb q "EoS").
  - store_step.
  - store_step; try apply store_read_existing.
    match goal with |- preserves _ (match ?l with _ => _ end) => destruct l end;
      store_step.
Qed.

Lemma store_update_shift_changes_summary :
  preserves store_untouched update_shift_changes_summary.
Proof.
  unfold update_shift_changes_summary. store_step.
  intros w. apply store_untouched_refl.
Qed.

Lemma store_adjust_excel_columns : preserves store_untouched adjust_excel_columns.
Proof. unfold adjust_excel_columns. store_step. Qed.

Lemma store_create_new_workbook : preserves store_untouched create_new_workbook.
Proof.
  intros w. unfold create_new_workbook, store_untouched. cbn.
  split; [reflexivity|]. split; [reflexivity|now left].
Qed.

Lemma store_file_exists : preserves store_untouched file_exists.
Proof. intros w. apply store_untouched_refl. Qed.

#[local] Hint Resolve store_save_quarter_to_excel store_aggregate_data
  store_update_shift_changes_summary store_adjust_excel_columns
  store_create_new_workbook store_file_exists : store.

(** C4, on the code. A submission never writes the JSON store: after
    [submit_data] the file holds what it held before (it is not even
    created), no write of it has happened, and the dataset in memory is
    the one from before or the one reloaded from the file; the
    submitted records reach neither. *)
Theorem submit_data_leaves_store (form : Form) (w : World) :
  store_untouched w (snd (submit_data form w)).
Proof.
  revert w. change (preserves store_untouched (submit_data form)).
  unfold submit_data. store_step.
  match goal with |- preserves _ (if ?b then _ else _) => destruct b end;
    store_step.
Qed.

(** The first submission of a shift: it succeeds, and there is still
    no JSON file and no record in memory. *)
Example submit_data_first_run :
  let r := submit_data dock_five fresh_world in
  fst r = Ok tt /\
  trace (snd r) =
    [printed_warning; sheet_written "SoS"; sheet_written "EoS";
     sheet_written "Shift Changes"; showinfo "Success"] /\
  json_file (snd r) = None /\
  shift_data (snd r) = [].
Proof. vm_compute. repeat split. Qed.

(** ** Column labels *)

Lemma In_add_new (k : string) (ks acc : list string) :
  In k (add_new acc ks) <-> In k acc \/ In k ks.
Proof.
  unfold add_new. revert acc. induction ks as [|k0 ks IH]; intros acc; simpl.
  - tauto.
  - rewrite IH. destruct (list_mem k0 acc) eqn:Hm.
    + apply list_mem_In in Hm. intuition (subst; auto).
    + rewrite in_app_iff. simpl. intuition.
Qed.

Lemma In_fold_add_new {A : Type} (keys : A -> list string) (k : string)
  (l : list A) (acc : list string) :
  In k (fold_left (fun acc x => add_new acc (keys x)) l acc) <->
  In k acc \/ exists x, In x l /\ In k (keys x).
Proof.
  revert acc. induction l as [|x l IH]; intros acc; simpl.
  - split; [tauto|]. intros [H|(x & [] & _)]. exact H.
  - rewrite IH, In_add_new. split.
    + intros [[H|H]|(y & Hy & Hk)]; [now left|right; exists x; auto|right; exists y; auto].
    + intros [H|(y & [<-|Hy] & Hk)]; [auto|auto|right; exists y; auto].
Qed.

(** The labels of [pd.DataFrame(records)] are the keys of the
    records. *)
Lemma In_columns_DataFrame_of (k : string) (records : list record) :
  In k (columns (DataFrame_of records)) <->
  exists r, In r records /\ In k (dict_keys r).
Proof.
  unfold DataFrame_of. cbn [columns].
  rewrite (In_fold_add_new (fun r : record => dict_keys r)). simpl. tauto.
Qed.

Lemma In_columns_concat (k : string) (dfs : list DataFrame) :
  In k (columns (concat dfs)) <-> exists df, In df dfs /\ In k (columns df).
Proof.
  unfold concat. cbn [columns].
  rewrite (In_fold_add_new columns). simpl. tauto.
Qed.

(** ** The Quarter column of the quarter sheets *)

(** Every record the form yields starts with its Quarter field. *)
Lemma collect_data_Quarter (form : Form) :
  Forall (fun r => dict_get "Quarter" r = Some (VStr (selected_quarter form)))
         (collect_data form).
Proof.
  unfold collect_data. repeat (apply Forall_app; split);
    repeat (apply Forall_cons; [reflexivity|]); apply Forall_nil.
Qed.

Lemma collect_data_nonempty (form : Form) : collect_data form <> [].
Proof. unfold collect_data. discriminate. Qed.

(** For a quarter other than EoS the sheet written by
    [save_quarter_to_excel] has a Quarter column as soon as one record
    has a Quarter field. *)
Lemma save_quarter_keeps_Quarter_of (quarter : string) (records : list record)
  (r : record) (v : value) (w : World) (wb : Workbook) :
  quarter <> "EoS" ->
  xlsx w = Some wb ->
  In r records ->
  dict_get "Quarter" r = Some v ->
  exists s,
    sheet_of (snd (save_quarter_to_excel quarter records w)) quarter = Some s /\
    In "Quarter" (header s).
Proof.
  intros Hq Hx Hr Hv. unfold save_quarter_to_excel.
  destruct (String.eqb_spec quarter "EoS") as [|_]; [contradiction|].
  cbn [andb]. unfold write_sheet. rewrite Hx. unfold sheet_of. cbn [snd xlsx].
  rewrite dict_get_set_same. eexists. split; [reflexivity|].
  rewrite header_to_excel. apply In_columns_DataFrame_of.
  exists r. split; [assumption|].
  apply dict_get_In in Hv. unfold dict_keys.
  change "Quarter" with (fst ("Quarter", v)). now apply in_map.
Qed.

(** So it is for the records of every form. *)
Lemma save_quarter_keeps_Quarter (form : Form) (w : World) (wb : Workbook) :
  selected_quarter form <> "EoS" ->
  xlsx w = Some wb ->
  exists s,
    sheet_of (snd (save_quarter_to_excel (selected_quarter form) (collect_data form) w))
             (selected_quarter form) = Some s /\
    In "Quarter" (header s).
Proof.
  intros Hq Hx.
  pose proof (collect_data_Quarter form) as Hall.
  pose proof (collect_data_nonempty form) as Hne.
  generalize dependent (collect_data form). intros records Hall Hne.
  destruct records as [|r rs]; [congruence|].
  apply Forall_inv in Hall.
  eapply save_quarter_keeps_Quarter_of; eauto. now left.
Qed.

(** C3, on the code. After the first start-of-shift submission the SoS
    sheet and the EoS sheet both carry a Quarter column, their headers
    differ, and the Shift Changes sheet carries none. *)
Theorem submit_data_Quarter_columns :
  let w := snd (submit_data dock_five fresh_world) in
  fst (submit_data dock_five fresh_world) = Ok tt /\
  option_map (fun s => list_mem "Quarter" (header s)) (sheet_of w "SoS") = Some true /\
  option_map (fun s => list_mem "Quarter" (header s)) (sheet_of w "EoS") = Some true /\
  option_map (fun s => list_mem "Quarter" (header s)) (sheet_of w "Shift Changes")
    = Some false /\
  option_map (fun s => firstn 3 (header s)) (sheet_of w "SoS")
    = Some ["Quarter"; "Role"; "Floor"] /\
  option_map (fun s => firstn 3 (header s)) (sheet_of w "EoS")
    = Some ["Role"; "Quarter"; "Floor"].
Proof. vm_compute. repeat split. Qed.

(** ** Import *)

Lemma import_quarter_imported (wb : Workbook) (data : dataset) (q : string) :
  import_quarter wb data q =
  match imported_frame wb q with
  | Some df => dict_set q (quarter_dict_of df) data
  | None => data
  end.
Proof.
  unfold import_quarter, imported_frame.
  destruct (dict_get q wb) as [s|]; [|reflexivity].
  cbv zeta. now destruct (negb (df_empty (read_sheet s)) && _).
Qed.

(** After the loop over the quarters, a quarter holds the dict built
    from its sheet if the import took the sheet, and what it held
    otherwise. *)
Lemma dict_get_import_quarters (wb : Workbook) (q : string) (qs : list string)
  (data : dataset) :
  dict_get q (fold_left (import_quarter wb) qs data) =
  if list_mem q qs then
    match imported_frame wb q with
    | Some df => Some (quarter_dict_of df)
    | None => dict_get q data
    end
  else dict_get q data.
Proof.
  revert data. induction qs as [|q' qs IH]; intros data; [reflexivity|].
  cbn [fold_left]. rewrite IH. rewrite import_quarter_imported.
  unfold list_mem. cbn [existsb]. fold (list_mem q qs). cbn [key_eqb string_Key].
  destruct (String.eqb_spec q q') as [<-|Hne]; cbn [orb].
  - destruct (imported_frame wb q) as [df|].
    + rewrite dict_get_set_same. now destruct (list_mem q qs).
    + now destruct (list_mem q qs).
  - destruct (imported_frame wb q') as [df'|].
    + now rewrite (dict_get_set_other q' q _ data Hne).
    + reflexivity.
Qed.

Lemma find_app {A : Type} (p : A -> bool) (l1 l2 : list A) :
  find p (l1 ++ l2) = match find p l1 with Some x => Some x | None => find p l2 end.
Proof.
  induction l1 as [|x l1 IH]; simpl; [reflexivity|].
  now destruct (p x).
Qed.

(** In the dict built from a sheet, a role holds the record of the
    last row with that Role cell. *)
Lemma dict_get_quarter_dict_fold (cols : list string) (role : value)
  (rs : list record) (qd : dict value record) :
  dict_get role
    (fold_left (fun quarter_dict row =>
                  dict_set (cell row "Role") (reindex cols row) quarter_dict) rs qd) =
  match last_row_of role rs with
  | Some row => Some (reindex cols row)
  | None => dict_get role qd
  end.
Proof.
  revert qd. induction rs as [|r rs IH]; intros qd; [reflexivity|].
  cbn [fold_left]. rewrite IH. unfold last_row_of. cbn [rev].
  rewrite find_app. fold (last_row_of role rs).
  destruct (last_row_of role rs) as [row|]; [reflexivity|].
  cbn [find]. destruct (value_eqb_spec (cell r "Role") role) as [<-|Hne].
  - apply dict_get_set_same.
  - apply dict_get_set_other. congruence.
Qed.

Lemma dict_get_quarter_dict_of (df : DataFrame) (role : value) :
  dict_get role (quarter_dict_of df) =
  option_map (reindex (columns df)) (last_row_of role (rows df)).
Proof.
  unfold quarter_dict_of. rewrite dict_get_quarter_dict_fold.
  now destruct (last_row_of role (rows df)).
Qed.

Lemma import_files_run (f : ExcelFile) (rest : list ExcelFile) (w : World) :
  forallb (fun g => String.eqb (file_dir g) (file_dir f)) rest = true ->
  import_files (f :: rest) w =
  let data := fold_left (import_quarter (file_book (max_mtime f rest))) QUARTERS
                (shift_data w) in
  (Ok tt,
   mkWorld data (Some data) (xlsx w)
     (trace w ++ [json_written] ++ [showinfo "Import Successful"])).
Proof.
  intros Hdir. unfold import_files. rewrite Hdir. cbn [negb].
  unfold bind, get_shift_data, set_shift_data, save_data_to_json, emit.
  cbn. now rewrite <- app_assoc.
Qed.

(** Against C1 as stated: GK is stored under SoS, the imported SoS
    sheet has a row and a Role column and no row for GK, and after the
    import GK is no longer stored under SoS. *)
Lemma import_files_drops_absent_role :
  let w := mkWorld sos_two_roles None None [] in
  let w' := snd (import_files [dock_only_file] w) in
  In "SoS" QUARTERS /\
  option_map (dict_get (VStr "GK")) (dict_get "SoS" (shift_data w)) =
    Some (Some [("Role", VStr "GK"); ("Headcount", VInt 2)]) /\
  option_map (fun df => column "Role" (rows df))
    (imported_frame (file_book dock_only_file) "SoS") = Some [VStr "Dock"] /\
  option_map (dict_get (VStr "GK")) (dict_get "SoS" (shift_data w')) = Some None /\
  shift_data w' =
    [("SoS", [(VStr "Dock", [("Role", VStr "Dock"); ("Headcount", VInt 7)])])].
Proof. cbv zeta. split; [now left|]. vm_compute. repeat split. Qed.

(** C1, amended. The import replaces whole quarters: when the picked
    files share a folder, every quarter of QUARTERS whose sheet in the
    newest file has at least one row and a Role column is set to the
    dict built from that sheet alone, in which a role holds the record
    of the last row with that Role; every other quarter keeps what it
    held; and the JSON store is then overwritten with the resulting
    dataset. *)
Theorem import_files_replaces_quarters (f : ExcelFile) (rest : list ExcelFile)
  (w : World) :
  forallb (fun g => String.eqb (file_dir g) (file_dir f)) rest = true ->
  let wb := file_book (max_mtime f rest) in
  let w' := snd (import_files (f :: rest) w) in
  fst (import_files (f :: rest) w) = Ok tt /\
  (forall q,
     dict_get q (shift_data w') =
     if list_mem q QUARTERS then
       match imported_frame wb q with
       | Some df => Some (quarter_dict_of df)
       | None => dict_get q (shift_data w)
       end
     else dict_get q (shift_data w)) /\
  (forall df role,
     dict_get role (quarter_dict_of df) =
     option_map (reindex (columns df)) (last_row_of role (rows df))) /\
  json_file w' = Some (shift_data w').
Proof.
  intros Hdir. cbv zeta. rewrite (import_files_run f rest w Hdir). cbv zeta.
  cbn [fst snd shift_data json_file].
  split; [reflexivity|]. split; [|split; [|reflexivity]].
  - intros q. apply dict_get_import_quarters.
  - exact dict_get_quarter_dict_of.
Qed.

Lemma import_files_replaces_quarters_witness :
  forallb (fun g => String.eqb (file_dir g) (file_dir dock_only_file)) [] = true /\
  json_file (snd (import_files [dock_only_file] (mkWorld sos_two_roles None None []))) =
  Some (shift_data (snd (import_files [dock_only_file]
                           (mkWorld sos_two_roles None None [])))).
Proof.
  split; [reflexivity|].
  exact (proj2 (proj2 (proj2
    (import_files_replaces_quarters dock_only_file []
       (mkWorld sos_two_roles None None []) eq_refl)))).
Defined.

(** ** Orders from comparisons *)

Section CmpFacts.
Context {A : Type} (cmp : A -> A -> comparison) (laws : CmpLaws cmp).

Lemma cmp_eq_r (a b c : A) : cmp b c = Eq -> cmp a b = cmp a c.
Proof.
  intros H. rewrite (cmp_antisym _ laws a b), (cmp_antisym _ laws a c).
  f_equal. symmetry. apply (cmp_eq_l _ laws).
  rewrite (cmp_antisym _ laws), H. reflexivity.
Qed.

Lemma not_gt_total (a b : A) : not_gt (cmp a b) = false -> not_gt (cmp b a) = true.
Proof. rewrite (cmp_antisym _ laws a b). now destruct (cmp b a). Qed.

Lemma not_gt_trans (a b c : A) :
  not_gt (cmp a b) = true -> not_gt (cmp b c) = true -> not_gt (cmp a c) = true.
Proof.
  destruct (cmp a b) eqn:Hab; [| |discriminate]; intros _.
  - now rewrite (cmp_eq_l _ laws a b c Hab).
  - destruct (cmp b c) eqn:Hbc; [| |discriminate]; intros _.
    + now rewrite <- (cmp_eq_r a b c Hbc), Hab.
    + now rewrite (cmp_lt_trans _ laws a b c Hab Hbc).
Qed.


End CmpFacts.



Lemma CmpLaws_Z : CmpLaws Z.compare.
Proof.
  constructor.
  - intros a b. apply Z.compare_antisym.
  - intros a b c H. apply Z.compare_eq in H. now subst.
  - intros a b c. rewrite !Z.compare_lt_iff. lia.
Qed.

Lemma CmpLaws_ascii : CmpLaws Ascii.compare.
Proof.
  unfold Ascii.compare. constructor.
  - intros a b. apply N.compare_antisym.
  - intros a b c H. apply N.compare_eq in H. now rewrite H.
  - intros a b c. rewrite !N.compare_lt_iff. lia.
Qed.

Lemma CmpLaws_string : CmpLaws String.compare.
Proof.
  constructor.
  - apply String.compare_antisym.
  - intros a b c H. apply String.compare_eq_iff in H. now subst.
  - intros a. induction a as [|x a IH]; intros [|y b] [|z c]; simpl;
      try discriminate; try reflexivity.
    destruct (Ascii.compare x y) eqn:Hxy; try discriminate;
      destruct (Ascii.compare y z) eqn:Hyz; try discriminate; intros H1 H2.
    + rewrite (cmp_eq_l _ CmpLaws_ascii x y z Hxy), Hyz. now apply IH with b.
    + now rewrite (cmp_eq_l _ CmpLaws_ascii x y z Hxy), Hyz.
    + now rewrite <- (cmp_eq_r _ CmpLaws_ascii x y z Hyz), Hxy.
    + now rewrite (cmp_lt_trans _ CmpLaws_ascii x y z Hxy Hyz).
Qed.

Lemma CmpLaws_value : CmpLaws value_cmp.
Proof.
  constructor.
  - intros [| |x|s] [| |y|t]; simpl; try reflexivity.
    + apply Z.compare_antisym.
    + apply String.compare_antisym.
  - intros [| |x|s] [| |y|t] c; simpl; try discriminate; try reflexivity; intros H.
    + apply Z.compare_eq in H. now subst.
    + apply String.compare_eq_iff in H. now subst.
  - intros [| |x|s] [| |y|t] [| |z|u]; simpl; try discriminate; try reflexivity.
    + apply (cmp_lt_trans _ CmpLaws_Z).
    + apply (cmp_lt_trans _ CmpLaws_string).
Qed.



(** ** Insertion sort *)

Section Sorting.
Context {A : Type} (leb : A -> A -> bool).
Hypothesis leb_total : forall a b, leb a b = false -> leb b a = true.
Hypothesis leb_trans : forall a b c, leb a b = true -> leb b c = true -> leb a c = true.

Lemma insert_perm (x : A) (l : list A) : Permutation (insert leb x l) (x :: l).
Proof.
  induction l as [|y l IH]; simpl; [reflexivity|].
  destruct (leb x y); [reflexivity|].
  rewrite IH. apply perm_swap.
Qed.

Lemma isort_perm (l : list A) : Permutation (isort leb l) l.
Proof.
  induction l as [|x l IH]; simpl; [reflexivity|].
  rewrite insert_perm. now constructor.
Qed.

Lemma insert_sorted (x : A) (l : list A) :
  StronglySorted (fun a b => leb a b = true) l ->
  StronglySorted (fun a b => leb a b = true) (insert leb x l).
Proof.
  induction 1 as [|y l Hl IH Hy]; simpl.
  - repeat constructor.
  - destruct (leb x y) eqn:Hxy.
    + constructor; [now constructor|].
      constructor; [exact Hxy|].
      rewrite Forall_forall in *. intros z Hz. eapply leb_trans; eauto.
    + constructor; [exact IH|].
      rewrite Forall_forall in *. intros z Hz.
      apply (Permutation_in _ (insert_perm x l)) in Hz.
      destruct Hz as [<-|Hz]; [now apply leb_total|now apply Hy].
Qed.

Lemma isort_sorted (l : list A) :
  StronglySorted (fun a b => leb a b = true) (isort leb l).
Proof.
  induction l as [|x l IH]; simpl; [constructor|now apply insert_sorted].
Qed.

End Sorting.


(** ** The Shift Changes summary *)



Lemma dict_get_filter_other (c c' : string) (r : record) :
  c' <> c ->
  dict_get c' (filter (fun kv : string * value => negb (String.eqb (fst kv) c)) r) =
  dict_get c' r.
Proof.
  intros Hne. induction r as [|[k v] r IH]; [reflexivity|]. cbn [filter fst].
  destruct (String.eqb_spec k c) as [->|Hk]; cbn [negb dict_get].
  - cbn [key_eqb string_Key]. destruct (String.eqb_spec c' c); [contradiction|exact IH].
  - now rewrite IH.
Qed.



Lemma list_mem_snoc (c x : string) (l : list string) :
  list_mem c (l ++ [x]) = list_mem c l || String.eqb c x.
Proof. unfold list_mem. rewrite existsb_app. simpl. now rewrite orb_false_r. Qed.

(** The three ways [summary_frame] ends. *)
Lemma summary_frame_cases (data : dataset) :
  let df := DataFrame_of (summary_rows data) in
  summary_frame data =
  if list_mem "Quarter" (columns df) then
    if list_mem "Role" (columns df) then
      Ok (mkDF
            (filter (fun k => negb (String.eqb k "QuarterOrder"))
               (if list_mem "QuarterOrder" (columns df) then columns df
                else columns df ++ ["QuarterOrder"]))
            (map without_helper
               (isort (row_leb ["QuarterOrder"; "Role"]) (map with_helper (rows df)))))
    else Raise (KeyError "Role")
  else Ok df.
Proof.
  cbv zeta. unfold summary_frame.
  destruct (list_mem "Quarter" (columns (DataFrame_of (summary_rows data))));
    [|reflexivity].
  unfold sort_values, assign_column. cbn [columns rows filter].
  set (cols := columns (DataFrame_of (summary_rows data))).
  assert (Hq : list_mem "QuarterOrder"
                 (if list_mem "QuarterOrder" cols then cols else cols ++ ["QuarterOrder"])
               = true).
  { destruct (list_mem "QuarterOrder" cols) eqn:Hm; [exact Hm|].
    rewrite list_mem_snoc. apply orb_true_r. }
  assert (Hr : list_mem "Role"
                 (if list_mem "QuarterOrder" cols then cols else cols ++ ["QuarterOrder"])
               = list_mem "Role" cols).
  { destruct (list_mem "QuarterOrder" cols); [reflexivity|].
    rewrite list_mem_snoc. apply orb_false_r. }
  rewrite Hq, Hr. cbn [negb].
  destruct (list_mem "Role" cols); reflexivity.
Qed.

Lemma In_dict_keys_dict_set {V : Type} (k k' : string) (v : V) (d : dict string V) :
  In k (dict_keys d) -> In k (dict_keys (dict_set k' v d)).
Proof.
  unfold dict_keys. induction d as [|[k0 v0] d IH]; simpl; [tauto|].
  destruct (String.eqb k' k0); simpl; tauto.
Qed.

Lemma In_dict_keys_dict_update {V : Type} (k : string) (row data : dict string V) :
  In k (dict_keys row) -> In k (dict_keys (dict_update row data)).
Proof.
  unfold dict_update. revert row. induction data as [|[k0 v0] data IH]; intros row Hk.
  - exact Hk.
  - cbn [fold_left]. apply IH. now apply In_dict_keys_dict_set.
Qed.

(** Every gathered row has a Quarter field. *)
Lemma summary_rows_Quarter (data : dataset) (r : record) :
  In r (summary_rows data) -> In "Quarter" (dict_keys r).
Proof.
  unfold summary_rows. rewrite in_flat_map. intros ([q roles] & _ & Hr).
  apply in_map_iff in Hr. destruct Hr as ([role d] & <- & _).
  apply In_dict_keys_dict_update. now left.
Qed.



(** ** Frames read from sheets *)

Lemma In_frames_of (wb : Workbook) (names : list string) (df : DataFrame) :
  In df (frames_of wb names) -> exists s, df = read_sheet s.
Proof.
  unfold frames_of. rewrite in_flat_map. intros (name & _ & Hdf).
  destruct (dict_get name wb) as [s|]; [|contradiction].
  destruct Hdf as [<-|[]]. now exists s.
Qed.

Lemma read_row_cell (s : Sheet) (r : record) (c : string) :
  In r (rows (read_sheet s)) -> excel_value (cell r c).
Proof.
  unfold read_sheet. cbn [rows]. rewrite in_map_iff. intros (xr & <- & _).
  unfold cell, excel_value.
  destruct (dict_get c (combine (header s) (map of_xcell xr))) as [v|] eqn:Hg;
    [|reflexivity].
  apply dict_get_In, in_combine_r, in_map_iff in Hg.
  destruct Hg as (x & <- & _). apply of_xcell_to_xcell.
Qed.

Lemma read_row_key (s : Sheet) (r : record) (c : string) (v : value) :
  In r (rows (read_sheet s)) -> dict_get c r = Some v -> In c (header s).
Proof.
  unfold read_sheet. cbn [rows]. rewrite in_map_iff. intros (xr & <- & _) Hg.
  now apply dict_get_In, in_combine_l in Hg.
Qed.

Lemma cell_reindex (cols : list string) (r : record) (c : string) :
  cell (reindex cols r) c = if list_mem c cols then cell r c else VNaN.
Proof.
  unfold reindex. unfold cell at 1.
  rewrite (dict_get_map_pair (cell r) c cols). now destruct (list_mem c cols).
Qed.

Lemma cell_reindex_in (cols : list string) (r : record) (c : string) :
  In c cols -> cell (reindex cols r) c = cell r c.
Proof. intros Hin. rewrite cell_reindex. apply list_mem_In in Hin. now rewrite Hin. Qed.

Lemma flat_map_map {A B C : Type} (g : B -> C) (f : A -> list B) (l : list A) :
  flat_map (fun x => map g (f x)) l = map g (flat_map f l).
Proof.
  induction l as [|x l IH]; simpl; [reflexivity|]. now rewrite map_app, IH.
Qed.

Lemma filter_map_comm {A B : Type} (p : B -> bool) (g : A -> B) (l : list A) :
  filter p (map g l) = map g (filter (fun x => p (g x)) l).
Proof.
  induction l as [|x l IH]; simpl; [reflexivity|].
  destruct (p (g x)); simpl; now rewrite IH.
Qed.

Lemma flat_map_filtered {X Y : Type} (keep : Y -> bool) (g : X -> list Y)
  (xs : list X) :
  flat_map (fun x => filter keep (g x)) xs = filter keep (flat_map g xs).
Proof.
  induction xs as [|x xs IH]; simpl; [reflexivity|]. now rewrite filter_app, IH.
Qed.

(** The rows of the combined table are the rows of the sheets, sheet
    after sheet, laid out on the union of the labels. *)
Lemma rows_concat (dfs : list DataFrame) :
  rows (concat dfs) = map (reindex (columns (concat dfs))) (flat_map rows dfs).
Proof. unfold concat. cbn [rows columns]. apply flat_map_map. Qed.

Lemma group_reindex (key : string) (k : value) (cols : list string) (rs : list record) :
  In key cols ->
  group key k (map (reindex cols) rs) = map (reindex cols) (group key k rs).
Proof.
  intros Hin. unfold group. rewrite filter_map_comm. f_equal.
  apply filter_ext. intros r. now rewrite cell_reindex_in.
Qed.

Lemma column_reindex (c : string) (cols : list string) (rs : list record) :
  In c cols -> column c (map (reindex cols) rs) = column c rs.
Proof.
  intros Hin. unfold column. rewrite map_map. apply map_ext.
  intros r. now apply cell_reindex_in.
Qed.

Lemma column_flat_map {A : Type} (c : string) (f : A -> list record) (l : list A) :
  column c (flat_map f l) = flat_map (fun x => column c (f x)) l.
Proof. unfold column. symmetry. apply flat_map_map. Qed.

Lemma sum_cells_app (l1 l2 : list value) :
  sum_cells (l1 ++ l2) = sum_cells l1 + sum_cells l2.
Proof.
  unfold sum_cells. induction l1 as [|v l1 IH]; simpl; [reflexivity|].
  rewrite IH. lia.
Qed.

Lemma sum_cells_flat_map {A : Type} (f : A -> list value) (l : list A) :
  sum_cells (flat_map f l) = fold_right Z.add 0 (map (fun x => sum_cells (f x)) l).
Proof.
  induction l as [|x l IH]; simpl; [reflexivity|]. now rewrite sum_cells_app, IH.
Qed.

Lemma is_numeric_flat_map {A : Type} (f : A -> list value) (l : list A) :
  is_numeric_dtype (flat_map f l) = forallb (fun x => is_numeric_dtype (f x)) l.
Proof.
  unfold is_numeric_dtype. induction l as [|x l IH]; simpl; [reflexivity|].
  now rewrite forallb_app, IH.
Qed.

Lemma iloc0_column (c : string) (rs : list record) :
  iloc0 (column c rs) = match hd_error rs with Some r => cell r c | None => VNaN end.
Proof. now destruct rs. Qed.

(** [x.sum()] and the dtype test on a column of rows, cell by cell. *)
Lemma sum_cells_column (c : string) (rs : list record) :
  sum_cells (column c rs) =
  fold_right Z.add 0 (map (fun r => match cell r c with VInt n => n | _ => 0 end) rs).
Proof.
  unfold sum_cells, column, num_or_0.
  induction rs as [|r rs IH]; simpl; [reflexivity|]. now rewrite IH.
Qed.

Lemma is_numeric_column (c : string) (rs : list record) :
  is_numeric_dtype (column c rs) =
  forallb (fun r => match cell r c with VInt _ | VNaN => true | _ => false end) rs.
Proof.
  unfold is_numeric_dtype, column.
  induction rs as [|r rs IH]; simpl; [reflexivity|]. now rewrite IH.
Qed.

(** The group of a role in the combined table, its total, its first
    row and the dtype of a column, in terms of the sheets. *)
Lemma group_concat (k : value) (dfs : list DataFrame) :
  In "Role" (columns (concat dfs)) ->
  group "Role" k (rows (concat dfs)) =
  map (reindex (columns (concat dfs)))
      (flat_map (fun df => group "Role" k (rows df)) dfs).
Proof.
  intros Hin. rewrite rows_concat, (group_reindex "Role" k _ _ Hin).
  f_equal. symmetry. apply flat_map_filtered.
Qed.

Lemma reduce_concat (k : value) (c : string) (dfs : list DataFrame) :
  In "Role" (columns (concat dfs)) ->
  In c (columns (concat dfs)) ->
  reduce (concat dfs) c (group "Role" k (rows (concat dfs))) =
  if numeric_column c dfs then VInt (role_total k c dfs)
  else match first_of_role k dfs with Some r => cell r c | None => VNaN end.
Proof.
  intros Hrole Hc. unfold reduce.
  rewrite (group_concat k dfs Hrole).
  rewrite rows_concat at 1. rewrite !(column_reindex c _ _ Hc).
  rewrite is_numeric_column.
  fold (numeric_column c dfs). destruct (numeric_column c dfs).
  - f_equal. rewrite sum_cells_column. unfold role_total, group.
    now rewrite flat_map_filtered.
  - apply iloc0_column.
Qed.

(** ** Grouped aggregation *)

Lemma In_group_keys (key : string) (df : DataFrame) (k : value) :
  In k (group_keys key df) <-> isna k = false /\ In k (column key (rows df)).
Proof.
  unfold group_keys. split.
  - intros Hin. apply (Permutation_in _ (isort_perm value_leb _)) in Hin.
    rewrite In_dedup, filter_In in Hin. destruct Hin as [Hin Hna].
    split; [now destruct (isna k)|exact Hin].
  - intros [Hna Hin].
    apply (Permutation_in _ (Permutation_sym (isort_perm value_leb _))).
    rewrite In_dedup, filter_In. split; [exact Hin|now rewrite Hna].
Qed.

Lemma NoDup_group_keys (key : string) (df : DataFrame) : NoDup (group_keys key df).
Proof.
  unfold group_keys.
  apply (Permutation_NoDup (Permutation_sym (isort_perm value_leb _))).
  apply NoDup_dedup.
Qed.

Lemma filter_eq_NoDup (x : value) (l : list value) :
  NoDup l -> In x l -> filter (fun y => value_eqb y x) l = [x].
Proof.
  induction 1 as [|y l Hy Hl IH]; [intros []|].
  cbn [filter]. destruct (value_eqb_spec y x) as [->|Hne].
  - intros _. f_equal.
    clear IH Hl. induction l as [|z l IH]; [reflexivity|].
    cbn [filter]. destruct (value_eqb_spec z x) as [->|_].
    + exfalso. apply Hy. now left.
    + apply IH. intros Hin. apply Hy. now right.
  - intros [Hx|Hx]; [congruence|now apply IH].
Qed.

Lemma cell_agg_row_key (key : string) (df : DataFrame) (others : list string) (k : value) :
  cell (agg_row key df others k) key = k.
Proof. unfold cell, agg_row. cbn [dict_get key_eqb string_Key]. now rewrite String.eqb_refl. Qed.

Lemma cell_agg_row_other (key : string) (df : DataFrame) (others : list string)
  (k : value) (c : string) :
  c <> key -> In c others ->
  cell (agg_row key df others k) c = reduce df c (group key k (rows df)).
Proof.
  intros Hne Hin. unfold cell, agg_row. cbn [dict_get key_eqb string_Key].
  destruct (String.eqb_spec c key); [contradiction|].
  rewrite (dict_get_map_pair (fun c => reduce df c (group key k (rows df))) c others).
  apply list_mem_In in Hin. now rewrite Hin.
Qed.

Lemma read_sheet_to_excel (df : DataFrame) :
  columns df <> [] ->
  read_sheet (to_excel df) =
  mkDF (columns df) (map (read_back (columns df)) (rows df)).
Proof.
  intros Hne. unfold to_excel. destruct (columns df) as [|c0 cs] eqn:Hc; [congruence|].
  unfold read_sheet. cbn [header body]. f_equal.
  rewrite map_map. apply map_ext. intros r. unfold read_back. now rewrite map_map.
Qed.

Lemma cell_read_back (cols : list string) (r : record) (c : string) :
  In c cols -> cell (read_back cols r) c = of_xcell (to_xcell (cell r c)).
Proof.
  intros Hin. unfold read_back. unfold cell at 1.
  now rewrite (dict_get_combine_map (fun c => of_xcell (to_xcell (cell r c))) c cols Hin).
Qed.

(** What the resolver writes when some contributing sheet has a Role
    column. *)
Lemma aggregate_data_writes (q : string) (w : World) (wb : Workbook) :
  q <> "EoS" ->
  xlsx w = Some wb ->
  In "Role" (columns (concat (frames_of wb CONTRIBUTING))) ->
  let comb := concat (frames_of wb CONTRIBUTING) in
  let others := filter (fun c => negb (String.eqb c "Role")) (columns comb) in
  aggregate_data q w =
  (Ok tt,
   mkWorld (shift_data w) (json_file w)
     (Some (dict_set "EoS"
              (to_excel (mkDF ("Role" :: others)
                           (map (agg_row "Role" comb others) (group_keys "Role" comb))))
              wb))
     (trace w ++ [sheet_written "EoS"])).
Proof.
  intros Hq Hx Hrole. cbv zeta. rewrite (aggregate_data_other q w wb Hq Hx).
  destruct (frames_of wb CONTRIBUTING) as [|d ds] eqn:Hd.
  - cbn in Hrole. contradiction.
  - unfold groupby_agg. apply list_mem_In in Hrole. now rewrite Hrole.
Qed.

(** Every cell of a row of a contributing sheet is a value as a sheet
    holds it. *)
Lemma frames_of_cell (wb : Workbook) (names : list string) (df : DataFrame)
  (r : record) (c : string) :
  In df (frames_of wb names) -> In r (rows df) -> excel_value (cell r c).
Proof.
  intros Hdf Hr. apply In_frames_of in Hdf. destruct Hdf as (s & ->).
  now apply (read_row_cell s).
Qed.

Lemma In_column_concat (dfs : list DataFrame) (c : string) (v : value) :
  In c (columns (concat dfs)) ->
  (In v (column c (rows (concat dfs))) <->
   exists df r, In df dfs /\ In r (rows df) /\ cell r c = v).
Proof.
  intros Hc. rewrite rows_concat, (column_reindex c _ _ Hc).
  unfold column. rewrite in_map_iff. split.
  - intros (r & Hv & Hr). apply in_flat_map in Hr. destruct Hr as (df & Hdf & Hr).
    now exists df, r.
  - intros (df & r & Hdf & Hr & Hv). exists r. split; [exact Hv|].
    apply in_flat_map. now exists df.
Qed.

(** C2. The EoS resolver for a quarter other than EoS.  For every Role
    that occurs in one of the sheets SoS, Q1, Q2, Q3 the workbook holds,
    the call returns normally and the EoS sheet it writes has exactly
    one row for that Role; in that row every column of a contributing
    sheet other than Role is present, a numeric column holds the sum of
    the Role's values over all contributing sheets with empty cells
    counted as 0, and any other column holds the value of the Role's
    first row in sheet order.  The sum and the test for a numeric column
    are stated on the rows of the sheets, cell by cell ([role_total],
    [numeric_column]), apart from the resolver's own [sum] and dtype
    test. *)
Theorem aggregate_data_totals (q : string) (w : World) (wb : Workbook) (role : value) :
  q <> "EoS" ->
  xlsx w = Some wb ->
  isna role = false ->
  (exists df r,
     In df (frames_of wb CONTRIBUTING) /\ In r (rows df) /\ cell r "Role" = role) ->
  exists eos row,
    fst (aggregate_data q w) = Ok tt /\
    option_map read_sheet (sheet_of (snd (aggregate_data q w)) "EoS") = Some eos /\
    group "Role" role (rows eos) = [row] /\
    forall c,
      (exists df, In df (frames_of wb CONTRIBUTING) /\ In c (columns df)) ->
      c <> "Role" ->
      In c (columns eos) /\
      cell row c =
        if numeric_column c (frames_of wb CONTRIBUTING)
        then VInt (role_total role c (frames_of wb CONTRIBUTING))
        else match first_of_role role (frames_of wb CONTRIBUTING) with
             | Some r => cell r c
             | None => VNaN
             end.
Proof.
  intros Hq Hx Hna (df0 & r0 & Hdf0 & Hr0 & Hrole0).
  set (dfs := frames_of wb CONTRIBUTING) in *.
  set (comb := concat dfs).
  set (others := filter (fun c => negb (String.eqb c "Role")) (columns comb)).
  set (cols := "Role" :: others).
  (* the Role column exists *)
  assert (Hrolecol : In "Role" (columns comb)).
  { apply In_columns_concat. exists df0. split; [exact Hdf0|].
    destruct (In_frames_of _ _ _ Hdf0) as (s & ->).
    unfold cell in Hrole0.
    destruct (dict_get "Role" r0) as [v|] eqn:Hg.
    - exact (read_row_key s r0 "Role" v Hr0 Hg).
    - subst role. discriminate. }
  pose proof (aggregate_data_writes q w wb Hq Hx Hrolecol) as Hrun.
  cbv zeta in Hrun. fold dfs comb others in Hrun.
  set (agg := mkDF cols (map (agg_row "Role" comb others) (group_keys "Role" comb))) in *.
  assert (Hread : read_sheet (to_excel agg) =
                  mkDF cols (map (read_back cols) (rows agg))).
  { apply (read_sheet_to_excel agg). discriminate. }
  (* the keys are values as a sheet holds them *)
  assert (Hkeys : forall k, In k (group_keys "Role" comb) -> excel_value k).
  { intros k Hk. apply In_group_keys in Hk. destruct Hk as [_ Hk].
    apply (In_column_concat dfs "Role" k Hrolecol) in Hk.
    destruct Hk as (df & r & Hdf & Hr & <-).
    exact (frames_of_cell wb CONTRIBUTING df r "Role" Hdf Hr). }
  assert (Hrolekey : In role (group_keys "Role" comb)).
  { apply In_group_keys. split; [exact Hna|].
    apply (In_column_concat dfs "Role" role Hrolecol). now exists df0, r0. }
  exists (read_sheet (to_excel agg)),
         (read_back cols (agg_row "Role" comb others role)).
  rewrite Hrun. cbn [fst snd]. unfold sheet_of. cbn [xlsx].
  rewrite dict_get_set_same. cbn [option_map].
  split; [reflexivity|]. split; [reflexivity|]. split.
  - (* exactly one row *)
    rewrite Hread. cbn [rows]. unfold agg at 1. cbn [rows].
    rewrite map_map. unfold group. rewrite filter_map_comm.
    rewrite (filter_ext_in _ (fun k => value_eqb k role)).
    + now rewrite (filter_eq_NoDup role _ (NoDup_group_keys "Role" comb) Hrolekey).
    + intros k Hk. rewrite cell_read_back by now left.
      rewrite cell_agg_row_key. now rewrite (Hkeys k Hk).
  - (* its cells *)
    intros c (df & Hdf & Hc) Hne.
    assert (Hccomb : In c (columns comb)).
    { apply In_columns_concat. now exists df. }
    assert (Hcoth : In c others).
    { unfold others. rewrite filter_In. split; [exact Hccomb|].
      destruct (String.eqb_spec c "Role"); [contradiction|reflexivity]. }
    split.
    + rewrite Hread. cbn [columns]. now right.
    + rewrite cell_read_back by now right.
      rewrite (cell_agg_row_other "Role" comb others role c Hne Hcoth).
      unfold comb. rewrite (reduce_concat role c dfs Hrolecol Hccomb).
      destruct (numeric_column c dfs); [reflexivity|].
      unfold first_of_role.
      destruct (flat_map (fun df => group "Role" role (rows df)) dfs)
        as [|r rs] eqn:Hfirst; [reflexivity|].
      cbn [hd_error].
      assert (Hr : In r (flat_map (fun df => group "Role" role (rows df)) dfs)).
      { rewrite Hfirst. now left. }
      apply in_flat_map in Hr. destruct Hr as (df' & Hdf' & Hr).
      unfold group in Hr. apply filter_In in Hr. destruct Hr as [Hr _].
      exact (frames_of_cell wb CONTRIBUTING df' r c Hdf' Hr).
Qed.

Lemma aggregate_data_totals_witness :
  numeric_column "Headcount" (frames_of two_sheets CONTRIBUTING) = true /\
  role_total (VStr "Dock") "Headcount" (frames_of two_sheets CONTRIBUTING) = 4 + 6 /\
  role_total (VStr "RSP (A2)") "Headcount" (frames_of two_sheets CONTRIBUTING) = 2 + 0 /\
  numeric_column "Floor" (frames_of two_sheets CONTRIBUTING) = false /\
  "Q1" <> "EoS" /\
  isna (VStr "Dock") = false /\
  (exists df r,
     In df (frames_of two_sheets CONTRIBUTING) /\ In r (rows df) /\
     cell r "Role" = VStr "Dock") /\
  exists eos row,
    fst (aggregate_data "Q1" (mkWorld [] None (Some two_sheets) [])) = Ok tt /\
    option_map read_sheet
      (sheet_of (snd (aggregate_data "Q1" (mkWorld [] None (Some two_sheets) []))) "EoS")
    = Some eos /\
    group "Role" (VStr "Dock") (rows eos) = [row] /\
    forall c,
      (exists df, In df (frames_of two_sheets CONTRIBUTING) /\ In c (columns df)) ->
      c <> "Role" ->
      In c (columns eos) /\
      cell row c =
        if numeric_column c (frames_of two_sheets CONTRIBUTING)
        then VInt (role_total (VStr "Dock") c (frames_of two_sheets CONTRIBUTING))
        else match first_of_role (VStr "Dock") (frames_of two_sheets CONTRIBUTING) with
             | Some r => cell r c
             | None => VNaN
             end.
Proof.
  assert (Hq : "Q1" <> "EoS") by discriminate.
  assert (Hrow : exists df r,
             In df (frames_of two_sheets CONTRIBUTING) /\ In r (rows df) /\
             cell r "Role" = VStr "Dock").
  { eexists. eexists. split; [left; reflexivity|].
    split; [left; reflexivity|reflexivity]. }
  split; [reflexivity|]. split; [reflexivity|].
  split; [reflexivity|]. split; [reflexivity|].
  split; [exact Hq|]. split; [reflexivity|]. split; [exact Hrow|].
  exact (aggregate_data_totals "Q1" (mkWorld [] None (Some two_sheets) [])
           two_sheets (VStr "Dock") Hq eq_refl eq_refl Hrow).
Defined.

(** The sheet written for that workbook: the headcounts add up, an
    empty cell counts as 0, Quarter and Floor come from the first row. *)
Example aggregate_data_two_sheets :
  sheet_of (snd (aggregate_data "Q1" (mkWorld [] None (Some two_sheets) []))) "EoS" =
  Some (mkSheet ["Role"; "Quarter"; "Floor"; "Headcount"; "Piles"]
          [[XStr "Dock"; XStr "SoS"; XEmpty; XInt 10; XInt 1];
           [XStr "RSP (A2)"; XStr "SoS"; XStr "A2"; XInt 2; XInt 3]]).
Proof. vm_compute. reflexivity. Qed.

(** ** The summary as written *)

Lemma update_shift_changes_summary_run (w : World) (wb : Workbook) :
  xlsx w = Some wb ->
  update_shift_changes_summary w =
  match summary_frame (shift_data w) with
  | Ok df =>
      (Ok tt,
       mkWorld (shift_data w) (json_file w)
         (Some (dict_set "Shift Changes" (to_excel df) wb))
         (trace w ++ [sheet_written "Shift Changes"]))
  | Raise e => (Raise e, w)
  end.
Proof.
  intros Hx. unfold update_shift_changes_summary, bind, get_shift_data, lift.
  destruct (summary_frame (shift_data w)) as [df|e]; [|reflexivity].
  unfold write_sheet. now rewrite Hx.
Qed.

(** Rows of three quarters stored in another order come out by quarter
    and role; a record without a Quarter field takes its quarter from
    the key it is stored under. *)
Example summary_frame_three_quarters :
  option_map header
    (sheet_of (snd (update_shift_changes_summary
                      (mkWorld three_quarters None (Some eos_only) [])))
       "Shift Changes") = Some ["Quarter"; "Role"; "Headcount"] /\
  option_map body
    (sheet_of (snd (update_shift_changes_summary
                      (mkWorld three_quarters None (Some eos_only) [])))
       "Shift Changes") =
  Some [[XStr "SoS"; XStr "Dock"; XInt 4];
        [XStr "SoS"; XStr "IOL"; XInt 1];
        [XStr "Q1"; XStr "Dock"; XInt 6];
        [XStr "Q1"; XStr "GK"; XInt 3];
        [XStr "EoS"; XStr "Dock"; XInt 9]].
Proof. vm_compute. split; reflexivity. Qed.

(** Records without a Role field: sorting raises and nothing is
    written. *)
Example summary_frame_no_Role :
  update_shift_changes_summary
    (mkWorld [("SoS", [(VStr "Dock", [("Headcount", VInt 10)])])] None (Some eos_only) []) =
  (Raise (KeyError "Role"),
   mkWorld [("SoS", [(VStr "Dock", [("Headcount", VInt 10)])])] None (Some eos_only) []).
Proof. vm_compute. reflexivity. Qed.

(** ** The text helpers on examples *)

Example strip_blanks : strip "  12 " = "12" /\ strip "   " = "" /\ strip "a b" = "a b".
Proof. repeat split; reflexivity. Qed.

Example py_int_texts :
  py_int " 42" = Some 42 /\ py_int "-7" = Some (-7) /\ py_int "4x" = None /\
  py_int "" = None.
Proof. repeat split; reflexivity. Qed.

Example entry_value_texts :
  entry_value " 5 " = VInt 5 /\ entry_value "" = VNone /\ entry_value "five" = VNone.
Proof. repeat split; reflexivity. Qed.

Example str_of_int_texts :
  str_of_int 120 = "120" /\ str_of_int (-7) = "-7" /\ str_of_int 0 = "0".
Proof. repeat split; reflexivity. Qed.

(** The records of the form with 5 in the Dock headcount field: fifteen
    of them, the Dock one with its count. *)
Example collect_data_dock_five :
  List.length (collect_data dock_five) = 15%nat /\
  nth_error (collect_data dock_five) 8 =
  Some [("Quarter", VStr "SoS"); ("Role", VStr "Dock"); ("Floor", VStr "");
        ("Headcount", VInt 5); ("Piles", VNone); ("Liquid Damages", VNone);
        ("Dry Damages", VNone); ("LAF", VNone); ("ISS", VNone); ("NC", VNone)].
Proof. split; reflexivity. Qed.

(** * Further properties of the code *)

(** ** Writing a quarter sheet *)

Lemma save_quarter_to_excel_run (quarter : string) (records : list record)
  (w : World) (wb : Workbook) :
  xlsx w = Some wb ->
  save_quarter_to_excel quarter records w =
  (Ok tt,
   mkWorld (shift_data w) (json_file w)
     (Some (dict_set quarter (to_excel (quarter_frame quarter records)) wb))
     (trace w ++ [sheet_written quarter])).
Proof.
  intros Hx. unfold save_quarter_to_excel, quarter_frame, write_sheet.
  now rewrite Hx.
Qed.

Lemma cell_drop_column (c c' : string) (r : record) :
  c' <> c ->
  cell (filter (fun kv : string * value => negb (String.eqb (fst kv) c)) r) c' = cell r c'.
Proof. intros Hne. unfold cell. now rewrite dict_get_filter_other. Qed.

(** The cells of the frame written, on its own labels, are the cells of
    the records. *)
Lemma quarter_frame_rows (quarter : string) (records : list record) :
  map (read_back (columns (quarter_frame quarter records)))
      (rows (quarter_frame quarter records)) =
  map (read_back (columns (quarter_frame quarter records))) records.
Proof.
  unfold quarter_frame. cbv zeta.
  set (df := DataFrame_of records).
  assert (Hrows : rows df = map (reindex (columns df)) records) by reflexivity.
  destruct (String.eqb quarter "EoS" && list_mem "Quarter" (columns df)).
  - unfold drop_column. cbn [columns rows]. rewrite Hrows, !map_map.
    apply map_ext. intros r. unfold read_back. f_equal.
    apply map_ext_in. intros c Hc. apply filter_In in Hc. destruct Hc as [Hc Hne].
    destruct (String.eqb_spec c "Quarter") as [|Hne']; [discriminate|].
    rewrite (cell_drop_column "Quarter" c _ Hne'). now rewrite cell_reindex_in.
  - rewrite Hrows, map_map. apply map_ext. intros r. unfold read_back. f_equal.
    apply map_ext_in. intros c Hc. now rewrite cell_reindex_in.
Qed.

(** X1. Writing a batch and reading the sheet back.  After
    [save_quarter_to_excel] on an existing workbook the named sheet
    reads back as one row per record, in the order of the batch, each
    cell being the record's value as a sheet holds it ([None], a missing
    key and empty text read as an empty cell); a batch without any
    label leaves an empty sheet; every other sheet is as before. *)
Theorem save_quarter_round_trip (quarter : string) (records : list record)
  (w : World) (wb : Workbook) :
  xlsx w = Some wb ->
  let w' := snd (save_quarter_to_excel quarter records w) in
  let cols := columns (quarter_frame quarter records) in
  fst (save_quarter_to_excel quarter records w) = Ok tt /\
  option_map read_sheet (sheet_of w' quarter) =
    Some (match cols with
          | [] => empty_frame
          | _ => mkDF cols (map (read_back cols) records)
          end) /\
  (forall name, name <> quarter -> sheet_of w' name = sheet_of w name).
Proof.
  intros Hx. cbv zeta. rewrite (save_quarter_to_excel_run quarter records w wb Hx).
  cbn [fst snd]. unfold sheet_of. cbn [xlsx]. rewrite Hx.
  split; [reflexivity|]. split.
  - rewrite dict_get_set_same. cbn [option_map]. f_equal.
    destruct (columns (quarter_frame quarter records)) as [|c cs] eqn:Hc.
    + unfold to_excel. now rewrite Hc.
    + rewrite read_sheet_to_excel by congruence.
      rewrite quarter_frame_rows. now rewrite Hc.
  - intros name Hne. now apply dict_get_set_other.
Qed.

Lemma save_quarter_round_trip_witness :
  xlsx (mkWorld [] None (Some eos_only) []) = Some eos_only /\
  option_map read_sheet
    (sheet_of (snd (save_quarter_to_excel "Q2"
                      [[("Role", VStr "Dock"); ("Headcount", VInt 5); ("Piles", VNone)]]
                      (mkWorld [] None (Some eos_only) []))) "Q2") =
  Some (mkDF ["Role"; "Headcount"; "Piles"]
          [[("Role", VStr "Dock"); ("Headcount", VInt 5); ("Piles", VNaN)]]).
Proof.
  split; [reflexivity|].
  exact (proj1 (proj2
    (save_quarter_round_trip "Q2"
       [[("Role", VStr "Dock"); ("Headcount", VInt 5); ("Piles", VNone)]]
       (mkWorld [] None (Some eos_only) []) eos_only eq_refl))).
Defined.

(** The frame written for EoS has no Quarter column. *)
Lemma quarter_frame_EoS (records : list record) :
  quarter_frame "EoS" records = without_Quarter (DataFrame_of records).
Proof. reflexivity. Qed.

(** X2. A submission for EoS is passed through.  Once
    [save_quarter_to_excel] has written a batch for EoS, the resolver
    run for EoS returns normally and leaves the whole workbook as the
    writer left it: the EoS sheet holds the batch itself, without a
    Quarter column, and nothing is added up. *)
Theorem aggregate_data_after_EoS_save (records : list record) (w : World) (wb : Workbook) :
  xlsx w = Some wb ->
  let w1 := snd (save_quarter_to_excel "EoS" records w) in
  aggregate_data "EoS" w1 = (Ok tt, with_event w1 (sheet_written "EoS")) /\
  option_map header (sheet_of w1 "EoS") =
    Some (filter (fun k => negb (String.eqb k "Quarter"))
            (columns (DataFrame_of records))).
Proof.
  intros Hx. cbv zeta.
  rewrite (save_quarter_to_excel_run "EoS" records w wb Hx). cbn [snd].
  rewrite aggregate_data_EoS. cbn [xlsx shift_data json_file trace].
  rewrite dict_get_set_same. unfold with_event. cbn [xlsx shift_data json_file trace].
  rewrite quarter_frame_EoS.
  set (d := without_Quarter (DataFrame_of records)).
  assert (Hfix : to_excel (without_Quarter (read_sheet (to_excel d))) = to_excel d).
  { rewrite without_Quarter_fixed; [apply to_excel_read_sheet|].
    unfold read_sheet. cbn [columns]. rewrite header_to_excel.
    apply without_Quarter_columns. }
  rewrite Hfix, dict_set_twice. split; [reflexivity|].
  unfold sheet_of. cbn [xlsx]. rewrite dict_get_set_same. cbn [option_map].
  rewrite header_to_excel. unfold d, without_Quarter.
  destruct (list_mem "Quarter" (columns (DataFrame_of records))) eqn:Hm; [reflexivity|].
  f_equal. symmetry. apply forallb_filter_id.
  apply forallb_forall. intros k Hk.
  destruct (String.eqb_spec k "Quarter") as [->|]; [|reflexivity].
  apply list_mem_In in Hk. congruence.
Qed.

Lemma aggregate_data_after_EoS_save_witness :
  xlsx (mkWorld [] None (Some eos_only) []) = Some eos_only /\
  option_map header
    (sheet_of (snd (save_quarter_to_excel "EoS" (collect_data dock_five)
                      (mkWorld [] None (Some eos_only) []))) "EoS") =
  Some (filter (fun k => negb (String.eqb k "Quarter"))
          (columns (DataFrame_of (collect_data dock_five)))).
Proof.
  split; [reflexivity|].
  exact (proj2 (aggregate_data_after_EoS_save (collect_data dock_five)
                  (mkWorld [] None (Some eos_only) []) eos_only eq_refl)).
Defined.

(** ** More on the EoS resolver *)

Lemma frames_of_set_other (wb : Workbook) (name : string) (s : Sheet)
  (names : list string) :
  ~ In name names ->
  frames_of (dict_set name s wb) names = frames_of wb names.
Proof.
  unfold frames_of. induction names as [|n names IH]; intros Hn; [reflexivity|].
  cbn [flat_map]. rewrite IH by (intros Hin; apply Hn; now right).
  rewrite dict_get_set_other; [reflexivity|]. intros ->. apply Hn. now left.
Qed.

Lemma aggregate_data_no_file (q : string) (w : World) :
  q <> "EoS" ->
  xlsx w = None ->
  aggregate_data q w = (Ok tt, with_event w (showerror "Error")).
Proof.
  intros Hq Hx. unfold aggregate_data.
  destruct (String.eqb_spec q "EoS") as [|_]; [contradiction|].
  unfold try_except, bind, sheetnames. rewrite Hx. reflexivity.
Qed.

(** X3. The resolver for a quarter other than EoS raises nothing and
    touches nothing but the EoS sheet: it always returns normally (a
    failure inside is turned into an error message), the dataset and the
    JSON file are as before, and every sheet other than EoS is as
    before. *)
Theorem aggregate_data_only_EoS (q : string) (w : World) :
  q <> "EoS" ->
  fst (aggregate_data q w) = Ok tt /\
  shift_data (snd (aggregate_data q w)) = shift_data w /\
  json_file (snd (aggregate_data q w)) = json_file w /\
  (forall name, name <> "EoS" ->
     sheet_of (snd (aggregate_data q w)) name = sheet_of w name).
Proof.
  intros Hq. destruct (xlsx w) as [wb|] eqn:Hx.
  - rewrite (aggregate_data_other q w wb Hq Hx).
    destruct (frames_of wb CONTRIBUTING) as [|d ds]; [now repeat split|].
    destruct (groupby_agg "Role" (concat (d :: ds))) as [agg|e]; cbn [fst snd].
    + repeat split; try reflexivity. intros name Hne. unfold sheet_of.
      cbn [xlsx]. rewrite Hx. now apply dict_get_set_other.
    + repeat split; try reflexivity.
  - rewrite (aggregate_data_no_file q w Hq Hx). now repeat split.
Qed.

Lemma aggregate_data_only_EoS_witness :
  "Q1" <> "EoS" /\
  fst (aggregate_data "Q1" (mkWorld [] None (Some two_sheets) [])) = Ok tt /\
  sheet_of (snd (aggregate_data "Q1" (mkWorld [] None (Some two_sheets) []))) "SoS" =
  sheet_of (mkWorld [] None (Some two_sheets) []) "SoS".
Proof.
  assert (Hq : "Q1" <> "EoS") by discriminate.
  split; [exact Hq|].
  pose proof (aggregate_data_only_EoS "Q1" (mkWorld [] None (Some two_sheets) []) Hq)
    as (Hok & _ & _ & Hsheets).
  split; [exact Hok|]. apply Hsheets. discriminate.
Defined.

(** X4. A failed aggregation leaves the workbook alone.  When the
    workbook is missing, or holds contributing sheets none of which has
    a Role column (as in a workbook just created), the resolver for a
    quarter other than EoS shows one error message and changes nothing
    else: the EoS sheet stays as it was. *)
Theorem aggregate_data_failure (q : string) (w : World) :
  q <> "EoS" ->
  (xlsx w = None \/
   exists wb,
     xlsx w = Some wb /\
     frames_of wb CONTRIBUTING <> [] /\
     forall df, In df (frames_of wb CONTRIBUTING) -> ~ In "Role" (columns df)) ->
  aggregate_data q w = (Ok tt, with_event w (showerror "Error")).
Proof.
  intros Hq [Hx|(wb & Hx & Hne & Hrole)].
  - now apply aggregate_data_no_file.
  - rewrite (aggregate_data_other q w wb Hq Hx).
    destruct (frames_of wb CONTRIBUTING) as [|d ds] eqn:Hd; [congruence|].
    unfold groupby_agg.
    destruct (list_mem "Role" (columns (concat (d :: ds)))) eqn:Hm; [|reflexivity].
    exfalso. apply list_mem_In in Hm. apply In_columns_concat in Hm.
    destruct Hm as (df & Hdf & Hin). exact (Hrole df Hdf Hin).
Qed.

Lemma aggregate_data_failure_witness :
  "SoS" <> "EoS" /\
  aggregate_data "SoS" (snd (create_new_workbook fresh_world)) =
  (Ok tt, with_event (snd (create_new_workbook fresh_world)) (showerror "Error")).
Proof.
  assert (Hq : "SoS" <> "EoS") by discriminate.
  split; [exact Hq|].
  apply (aggregate_data_failure "SoS" _ Hq). right.
  eexists. split; [reflexivity|]. split; [discriminate|].
  intros df [<-|[<-|[<-|[<-|[]]]]]; intros [].
Defined.

(** X5. What was in the EoS sheet does not count.  For a quarter other
    than EoS the sheet written depends on the contributing sheets only:
    two workbooks that differ in their EoS sheet alone end with the same
    EoS sheet, so a batch submitted for EoS earlier is replaced by the
    totals. *)
Theorem aggregate_data_forgets_EoS (q : string) (w : World) (wb : Workbook) (s : Sheet) :
  q <> "EoS" ->
  xlsx w = Some wb ->
  In "Role" (columns (concat (frames_of wb CONTRIBUTING))) ->
  sheet_of (snd (aggregate_data q
                   (mkWorld (shift_data w) (json_file w)
                      (Some (dict_set "EoS" s wb)) (trace w)))) "EoS" =
  sheet_of (snd (aggregate_data q w)) "EoS".
Proof.
  intros Hq Hx Hrole.
  assert (Hf : frames_of (dict_set "EoS" s wb) CONTRIBUTING = frames_of wb CONTRIBUTING).
  { apply frames_of_set_other. intros [H|[H|[H|[H|[]]]]]; discriminate. }
  rewrite (aggregate_data_writes q w wb Hq Hx Hrole).
  rewrite (aggregate_data_writes q
             (mkWorld (shift_data w) (json_file w) (Some (dict_set "EoS" s wb)) (trace w))
             (dict_set "EoS" s wb) Hq eq_refl);
    [|rewrite Hf; exact Hrole].
  rewrite Hf. unfold sheet_of. cbn [snd xlsx].
  now rewrite !dict_get_set_same.
Qed.

Lemma aggregate_data_forgets_EoS_witness :
  "Q1" <> "EoS" /\
  In "Role" (columns (concat (frames_of two_sheets CONTRIBUTING))) /\
  sheet_of (snd (aggregate_data "Q1"
                   (mkWorld [] None
                      (Some (dict_set "EoS"
                               (mkSheet ["Role"; "Headcount"] [[XStr "Dock"; XInt 99]])
                               two_sheets)) []))) "EoS" =
  sheet_of (snd (aggregate_data "Q1" (mkWorld [] None (Some two_sheets) []))) "EoS".
Proof.
  assert (Hq : "Q1" <> "EoS") by discriminate.
  assert (Hrole : In "Role" (columns (concat (frames_of two_sheets CONTRIBUTING)))).
  { right. now left. }
  split; [exact Hq|]. split; [exact Hrole|].
  exact (aggregate_data_forgets_EoS "Q1" (mkWorld [] None (Some two_sheets) [])
           two_sheets (mkSheet ["Role"; "Headcount"] [[XStr "Dock"; XInt 99]])
           Hq eq_refl Hrole).
Defined.

(** Keys that compare equal and are not missing are equal. *)
Lemma value_cmp_Eq (a b : value) :
  isna a = false -> value_cmp a b = Eq -> a = b.
Proof.
  destruct a as [| |x|s], b as [| |y|t]; simpl; try discriminate; intros _ H.
  - apply Z.compare_eq in H. now subst.
  - apply String.compare_eq_iff in H. now subst.
Qed.

Lemma group_keys_increasing (key : string) (df : DataFrame) :
  StronglySorted value_lt (group_keys key df).
Proof.
  pose proof (NoDup_group_keys key df) as Hnd.
  assert (Hna : Forall (fun k => isna k = false) (group_keys key df)).
  { apply Forall_forall. intros k Hk. now apply In_group_keys in Hk. }
  assert (Hs : StronglySorted (fun a b => value_leb a b = true) (group_keys key df)).
  { unfold group_keys. apply isort_sorted.
    - intros a b. apply (not_gt_total _ CmpLaws_value).
    - intros a b c. apply (not_gt_trans _ CmpLaws_value). }
  induction Hs as [|k ks Hks IH Hk]; [constructor|].
  inversion Hnd as [|? ? Hnin Hnd']; subst.
  inversion Hna as [|? ? Hk0 Hna']; subst.
  constructor; [now apply IH|].
  rewrite Forall_forall in *. intros k' Hk'.
  specialize (Hk k' Hk'). unfold value_leb in Hk. unfold value_lt.
  destruct (value_cmp k k') eqn:Hc; [|reflexivity|discriminate].
  apply (value_cmp_Eq k k' Hk0) in Hc. subst. contradiction.
Qed.

(** X6. The rows of the totals are in role order.  When some
    contributing sheet has a Role column, the Role cells of the EoS
    sheet written, read from top to bottom, are the roles of the
    contributing sheets, each once, none of them empty, in strictly
    increasing order (numbers before text, text by code point). *)
Theorem aggregate_data_role_order (q : string) (w : World) (wb : Workbook) :
  q <> "EoS" ->
  xlsx w = Some wb ->
  In "Role" (columns (concat (frames_of wb CONTRIBUTING))) ->
  exists eos,
    option_map read_sheet (sheet_of (snd (aggregate_data q w)) "EoS") = Some eos /\
    StronglySorted value_lt (column "Role" (rows eos)) /\
    Forall (fun k => isna k = false) (column "Role" (rows eos)) /\
    (forall k, In k (column "Role" (rows eos)) <->
       isna k = false /\
       exists df r, In df (frames_of wb CONTRIBUTING) /\ In r (rows df) /\
                    cell r "Role" = k).
Proof.
  intros Hq Hx Hrole.
  rewrite (aggregate_data_writes q w wb Hq Hx Hrole). cbn [snd].
  unfold sheet_of. cbn [xlsx]. rewrite dict_get_set_same. cbn [option_map].
  set (comb := concat (frames_of wb CONTRIBUTING)) in *.
  set (others := filter (fun c => negb (String.eqb c "Role")) (columns comb)).
  eexists. split; [reflexivity|].
  rewrite read_sheet_to_excel by discriminate. cbn [rows columns].
  assert (Hcol : column "Role"
                   (map (read_back ("Role" :: others))
                      (map (agg_row "Role" comb others) (group_keys "Role" comb))) =
                 group_keys "Role" comb).
  { unfold column. rewrite !map_map.
    rewrite <- (map_id (group_keys "Role" comb)) at 2.
    apply map_ext_in. intros k Hk.
    rewrite cell_read_back by now left. rewrite cell_agg_row_key.
    apply In_group_keys in Hk. destruct Hk as [_ Hk].
    apply (In_column_concat _ "Role" k Hrole) in Hk.
    destruct Hk as (df & r & Hdf & Hr & <-).
    exact (frames_of_cell wb CONTRIBUTING df r "Role" Hdf Hr). }
  rewrite Hcol. split; [apply group_keys_increasing|]. split.
  - apply Forall_forall. intros k Hk. now apply In_group_keys in Hk.
  - intros k. rewrite In_group_keys. unfold comb in *.
    now rewrite (In_column_concat (frames_of wb CONTRIBUTING) "Role" k Hrole).
Qed.

Lemma aggregate_data_role_order_witness :
  "Q1" <> "EoS" /\
  In "Role" (columns (concat (frames_of two_sheets CONTRIBUTING))) /\
  exists eos,
    option_map read_sheet
      (sheet_of (snd (aggregate_data "Q1" (mkWorld [] None (Some two_sheets) []))) "EoS")
    = Some eos /\
    StronglySorted value_lt (column "Role" (rows eos)).
Proof.
  assert (Hq : "Q1" <> "EoS") by discriminate.
  assert (Hrole : In "Role" (columns (concat (frames_of two_sheets CONTRIBUTING)))).
  { right. now left. }
  split; [exact Hq|]. split; [exact Hrole|].
  destruct (aggregate_data_role_order "Q1" (mkWorld [] None (Some two_sheets) [])
              two_sheets Hq eq_refl Hrole) as (eos & Heos & Hsorted & _).
  exists eos. split; assumption.
Defined.

(** ** More on the import *)

(** X7. Files from different folders are refused before anything is
    read: when two of the picked files lie in different folders,
    [import_files] shows one error message and leaves the dataset, the
    JSON file and the workbook as they were. *)
Theorem import_files_mixed_folders (files : list ExcelFile) (w : World) :
  (exists g h, In g files /\ In h files /\ file_dir g <> file_dir h) ->
  import_files files w = (Ok tt, with_event w (showerror "Error")).
Proof.
  intros (g & h & Hg & Hh & Hne).
  destruct files as [|f rest]; [contradiction|].
  unfold import_files.
  destruct (forallb (fun g => String.eqb (file_dir g) (file_dir f)) rest) eqn:Hall;
    [|reflexivity].
  exfalso. rewrite forallb_forall in Hall.
  assert (Hdir : forall x, In x (f :: rest) -> file_dir x = file_dir f).
  { intros x [<-|Hx]; [reflexivity|]. now apply String.eqb_eq, Hall. }
  apply Hne. now rewrite (Hdir g Hg), (Hdir h Hh).
Qed.

Lemma import_files_mixed_folders_witness :
  (exists g h,
     In g [dock_only_file; mkFile "exports/2025-01-02" 2 []] /\
     In h [dock_only_file; mkFile "exports/2025-01-02" 2 []] /\
     file_dir g <> file_dir h) /\
  import_files [dock_only_file; mkFile "exports/2025-01-02" 2 []]
    (mkWorld sos_two_roles None None []) =
  (Ok tt, with_event (mkWorld sos_two_roles None None []) (showerror "Error")).
Proof.
  assert (H : exists g h,
     In g [dock_only_file; mkFile "exports/2025-01-02" 2 []] /\
     In h [dock_only_file; mkFile "exports/2025-01-02" 2 []] /\
     file_dir g <> file_dir h).
  { exists dock_only_file, (mkFile "exports/2025-01-02" 2 []).
    split; [now left|]. split; [right; now left|discriminate]. }
  split; [exact H|].
  exact (import_files_mixed_folders _ (mkWorld sos_two_roles None None []) H).
Defined.

Lemma max_mtime_split (files : list ExcelFile) (best : ExcelFile) :
  (max_mtime best files = best /\
   forall g, In g files -> file_mtime g <= file_mtime best) \/
  (exists l1 l2,
     files = l1 ++ max_mtime best files :: l2 /\
     file_mtime best < file_mtime (max_mtime best files) /\
     (forall g, In g l1 -> file_mtime g < file_mtime (max_mtime best files)) /\
     (forall g, In g l2 -> file_mtime g <= file_mtime (max_mtime best files))).
Proof.
  revert best. induction files as [|f files IH]; intros best; cbn [max_mtime].
  - left. split; [reflexivity|]. intros g [].
  - destruct (Z.ltb_spec (file_mtime best) (file_mtime f)) as [Hlt|Hge].
    + right. destruct (IH f) as [[Hm Hall]|(l1 & l2 & Hsplit & Hbest & H1 & H2)].
      * exists [], files. rewrite Hm. cbn [app].
        split; [reflexivity|]. split; [exact Hlt|]. split; [intros g []|exact Hall].
      * exists (f :: l1), l2. cbn [app]. split; [now f_equal|].
        split; [lia|]. split; [|exact H2].
        intros g [<-|Hg]; [exact Hbest|now apply H1].
    + destruct (IH best) as [[Hm Hall]|(l1 & l2 & Hsplit & Hbest & H1 & H2)].
      * left. split; [exact Hm|]. intros g [<-|Hg]; [exact Hge|now apply Hall].
      * right. exists (f :: l1), l2. cbn [app]. split; [now f_equal|].
        split; [exact Hbest|]. split; [|exact H2].
        intros g [<-|Hg]; [lia|now apply H1].
Qed.

(** X8. The file imported is the newest, the first of the newest when
    several share the latest time: it is one of the picked files, no
    picked file is newer, and every file picked before it is strictly
    older. *)
Theorem max_mtime_newest (f : ExcelFile) (rest : list ExcelFile) :
  exists l1 l2,
    f :: rest = l1 ++ max_mtime f rest :: l2 /\
    (forall g, In g l1 -> file_mtime g < file_mtime (max_mtime f rest)) /\
    (forall g, In g (f :: rest) -> file_mtime g <= file_mtime (max_mtime f rest)).
Proof.
  destruct (max_mtime_split rest f) as [[Hm Hall]|(l1 & l2 & Hsplit & Hbest & H1 & H2)].
  - exists [], rest. rewrite Hm. cbn [app]. split; [reflexivity|].
    split; [intros g []|]. intros g [<-|Hg]; [lia|now apply Hall].
  - exists (f :: l1), l2. cbn [app]. split; [now f_equal|]. split.
    + intros g [<-|Hg]; [exact Hbest|now apply H1].
    + intros g [<-|Hg]; [lia|]. rewrite Hsplit in Hg.
      apply in_app_or in Hg. destruct Hg as [Hg|[<-|Hg]];
        [specialize (H1 g Hg); lia|lia|now apply H2].
Qed.

Lemma dict_set_same_value {K V : Type} `{KeyLaws K} (k : K) (v : V) (d : dict K V) :
  dict_get k d = Some v -> dict_set k v d = d.
Proof.
  induction d as [|[k0 v0] d IH]; simpl; [discriminate|].
  destruct (key_eqb_spec k k0) as [->|Hne].
  - now intros [= ->].
  - intros Hg. f_equal. now apply IH.
Qed.

Lemma import_quarters_fixed (wb : Workbook) (qs : list string) (data : dataset) :
  (forall q df, In q qs -> imported_frame wb q = Some df ->
     dict_get q data = Some (quarter_dict_of df)) ->
  fold_left (import_quarter wb) qs data = data.
Proof.
  induction qs as [|q qs IH]; intros Hfix; [reflexivity|].
  cbn [fold_left].
  assert (Hq : import_quarter wb data q = data).
  { rewrite import_quarter_imported.
    destruct (imported_frame wb q) as [df|] eqn:Hi; [|reflexivity].
    apply dict_set_same_value. apply Hfix; [now left|exact Hi]. }
  rewrite Hq. apply IH. intros q' df Hin. apply Hfix. now right.
Qed.

(** X9. Importing the same files a second time changes nothing: the
    dataset in memory and the JSON file are as the first import left
    them. *)
Theorem import_files_twice (f : ExcelFile) (rest : list ExcelFile) (w : World) :
  forallb (fun g => String.eqb (file_dir g) (file_dir f)) rest = true ->
  let w1 := snd (import_files (f :: rest) w) in
  let w2 := snd (import_files (f :: rest) w1) in
  shift_data w2 = shift_data w1 /\ json_file w2 = json_file w1.
Proof.
  intros Hdir. cbv zeta.
  rewrite (import_files_run f rest w Hdir). cbv zeta. cbn [snd].
  rewrite (import_files_run f rest _ Hdir). cbv zeta.
  cbn [snd shift_data json_file].
  set (wb := file_book (max_mtime f rest)).
  set (d1 := fold_left (import_quarter wb) QUARTERS (shift_data w)).
  assert (Hfix : fold_left (import_quarter wb) QUARTERS d1 = d1).
  { apply import_quarters_fixed. intros q df Hq Hi. unfold d1.
    rewrite dict_get_import_quarters.
    apply list_mem_In in Hq. now rewrite Hq, Hi. }
  now rewrite Hfix.
Qed.

Lemma import_files_twice_witness :
  forallb (fun g => String.eqb (file_dir g) (file_dir dock_only_file)) [] = true /\
  shift_data
    (snd (import_files [dock_only_file]
            (snd (import_files [dock_only_file] (mkWorld sos_two_roles None None []))))) =
  shift_data (snd (import_files [dock_only_file] (mkWorld sos_two_roles None None []))).
Proof.
  split; [reflexivity|].
  exact (proj1 (import_files_twice dock_only_file []
                  (mkWorld sos_two_roles None None []) eq_refl)).
Defined.

(** ** The dataset across import and submission *)




(** ** The rows of the summary *)

Lemma dict_get_not_key {V : Type} (k : string) (d : dict string V) :
  ~ In k (dict_keys d) -> dict_get k d = None.
Proof.
  unfold dict_keys. induction d as [|[k0 v0] d IH]; simpl; [reflexivity|].
  intros Hn. destruct (String.eqb_spec k k0) as [->|_]; [tauto|]. apply IH. tauto.
Qed.

(** [row.update(data)] on a well-formed dict: the fields of [data] win,
    the others stay. *)
Lemma dict_get_dict_update {V : Type} (k : string) (row data : dict string V) :
  NoDup (dict_keys data) ->
  dict_get k (dict_update row data) =
  match dict_get k data with Some v => Some v | None => dict_get k row end.
Proof.
  unfold dict_update. revert row.
  induction data as [|[k0 v0] data IH]; intros row Hnd; [reflexivity|].
  cbn [fold_left fst snd]. cbn [dict_keys map fst] in Hnd.
  inversion Hnd as [|? ? Hnin Hnd']; subst.
  rewrite (IH _ Hnd'). cbn [dict_get key_eqb string_Key].
  destruct (String.eqb_spec k k0) as [->|Hne].
  - rewrite (dict_get_not_key k0 data Hnin). apply dict_get_set_same.
  - destruct (dict_get k data); [reflexivity|]. now apply dict_get_set_other.
Qed.

Lemma In_summary_rows (data : dataset) (r : record) :
  In r (summary_rows data) <->
  exists q roles role d,
    In (q, roles) data /\ In (role, d) roles /\
    r = dict_update [("Quarter", VStr q)] d.
Proof.
  unfold summary_rows. rewrite in_flat_map. split.
  - intros ([q roles] & Hq & Hr). apply in_map_iff in Hr.
    destruct Hr as ([role d] & <- & Hd). now exists q, roles, role, d.
  - intros (q & roles & role & d & Hq & Hd & ->). exists (q, roles).
    split; [exact Hq|]. apply in_map_iff. now exists (role, d).
Qed.

Lemma length_summary_rows (data : dataset) :
  List.length (summary_rows data) = count_records data.
Proof.
  induction data as [|[q roles] data IH]; [reflexivity|].
  change (summary_rows ((q, roles) :: data))
    with (map (fun rd : value * record =>
                 dict_update [("Quarter", VStr q)] (snd rd)) roles
          ++ summary_rows data).
  rewrite length_app, length_map. unfold count_records in *.
  cbn [map fold_right snd]. f_equal. exact IH.
Qed.

(** X11. What a row of the summary shows.  Every record of the dataset
    gives one row (as many rows as records); the row carries the
    record's fields as they are, the Role included, which is read from
    the record and not from the key it is stored under; and its Quarter
    is the record's own Quarter field when it has one, the quarter it is
    stored under only when it has none. *)
Theorem summary_rows_fields (data : dataset) :
  List.length (summary_rows data) = count_records data /\
  forall q roles role d,
    In (q, roles) data -> In (role, d) roles -> NoDup (dict_keys d) ->
    exists r,
      In r (summary_rows data) /\
      cell r "Quarter" =
        match dict_get "Quarter" d with Some v => v | None => VStr q end /\
      forall c, c <> "Quarter" -> cell r c = cell d c.
Proof.
  split; [apply length_summary_rows|].
  intros q roles role d Hq Hd Hnd.
  exists (dict_update [("Quarter", VStr q)] d). split.
  - apply In_summary_rows. now exists q, roles, role, d.
  - unfold cell. split.
    + rewrite (dict_get_dict_update _ _ _ Hnd).
      now destruct (dict_get "Quarter" d).
    + intros c Hne. rewrite (dict_get_dict_update _ _ _ Hnd).
      destruct (dict_get c d); [reflexivity|].
      cbn [dict_get key_eqb string_Key].
      now destruct (String.eqb_spec c "Quarter").
Qed.

(** A record stored under SoS whose own Quarter field says Q3 is listed
    as Q3. *)
Example summary_rows_own_Quarter :
  summary_rows [("SoS", [(VStr "Dock", [("Quarter", VStr "Q3"); ("Role", VStr "GK")])])] =
  [[("Quarter", VStr "Q3"); ("Role", VStr "GK")]].
Proof. reflexivity. Qed.

Lemma In_dict_keys_dict_set_inv {V : Type} (k k' : string) (v : V) (d : dict string V) :
  In k (dict_keys (dict_set k' v d)) -> k = k' \/ In k (dict_keys d).
Proof.
  unfold dict_keys. induction d as [|[k0 v0] d IH]; simpl.
  - intros [<-|[]]. now left.
  - destruct (String.eqb_spec k' k0) as [->|Hne]; simpl; [tauto|].
    intros [H|H]; [tauto|]. destruct (IH H); tauto.
Qed.

Lemma In_dict_keys_dict_update_inv {V : Type} (k : string) (row data : dict string V) :
  In k (dict_keys (dict_update row data)) ->
  In k (dict_keys row) \/ In k (dict_keys data).
Proof.
  unfold dict_update. revert row.
  induction data as [|[k0 v0] data IH]; intros row Hk; [now left|].
  cbn [fold_left fst snd] in Hk. destruct (IH _ Hk) as [H|H].
  - apply In_dict_keys_dict_set_inv in H. destruct H as [->|H]; [right; now left|now left].
  - right. now right.
Qed.

(** X12. A dataset without Role fields cannot be summarised.  When the
    dataset holds at least one record and no record has a Role field,
    [update_shift_changes_summary] raises the KeyError for Role and
    writes nothing: the world is as before. *)
Theorem update_shift_changes_summary_no_Role (w : World) :
  count_records (shift_data w) <> 0%nat ->
  (forall q roles role d,
     In (q, roles) (shift_data w) -> In (role, d) roles -> ~ In "Role" (dict_keys d)) ->
  update_shift_changes_summary w = (Raise (KeyError "Role"), w).
Proof.
  intros Hcount Hno.
  assert (Hframe : summary_frame (shift_data w) = Raise (KeyError "Role")).
  { pose proof (summary_frame_cases (shift_data w)) as Hc. cbv zeta in Hc.
    rewrite Hc. clear Hc.
    set (df := DataFrame_of (summary_rows (shift_data w))).
    assert (Hq : list_mem "Quarter" (columns df) = true).
    { rewrite <- length_summary_rows in Hcount.
      destruct (summary_rows (shift_data w)) as [|r rs] eqn:Hrows; [now cbn in Hcount|].
      apply list_mem_In. apply In_columns_DataFrame_of. exists r.
      split; [rewrite ?Hrows; now left|].
      apply (summary_rows_Quarter (shift_data w)). rewrite Hrows. now left. }
    assert (Hr : list_mem "Role" (columns df) = false).
    { destruct (list_mem "Role" (columns df)) eqn:Hm; [|reflexivity]. exfalso.
      apply list_mem_In in Hm. apply In_columns_DataFrame_of in Hm.
      destruct Hm as (r & Hin & Hk). apply In_summary_rows in Hin.
      destruct Hin as (q & roles & role & d & Hqd & Hd & ->).
      apply In_dict_keys_dict_update_inv in Hk. destruct Hk as [[Hk|[]]|Hk].
      - discriminate.
      - exact (Hno q roles role d Hqd Hd Hk). }
    now rewrite Hq, Hr. }
  unfold update_shift_changes_summary, bind, get_shift_data, lift.
  now rewrite Hframe.
Qed.

Lemma update_shift_changes_summary_no_Role_witness :
  let w := mkWorld zero_to_five None (Some eos_only) [] in
  count_records (shift_data w) <> 0%nat /\
  update_shift_changes_summary w = (Raise (KeyError "Role"), w).
Proof.
  cbv zeta.
  assert (Hc : count_records (shift_data (mkWorld zero_to_five None (Some eos_only) []))
               <> 0%nat) by discriminate.
  split; [exact Hc|].
  apply (update_shift_changes_summary_no_Role _ Hc).
  intros q roles role d [H|[H|[]]] Hd; injection H as <- <-;
    destruct Hd as [Hd|[]]; injection Hd as <- <-;
    intros [Hk|[]]; discriminate.
Defined.

(** ** What the steps of a submission leave alone *)

Section SheetFrames.
Context (R : World -> World -> Prop) (ok_name : string -> Prop).
Hypothesis R_trans : forall w1 w2 w3, R w1 w2 -> R w2 w3 -> R w1 w3.
Hypothesis R_same_xlsx : forall w w', xlsx w' = xlsx w -> R w w'.
Hypothesis R_write :
  forall df name w, ok_name name -> R w (snd (write_sheet df name w)).



















End SheetFrames.






(** ** A submission, step by step *)









(** ** Floats of the difference table *)

(** A finite float is a zero or has a mantissa. *)
Lemma Prim2SF_finite_cases (f : float) :
  is_finite f = true ->
  (exists s, Prim2SF f = S754_zero s) \/
  (exists s m e, Prim2SF f = S754_finite s m e).
Proof.
  unfold is_finite. intros H. apply negb_true_iff, orb_false_iff in H.
  destruct H as [Hn Hi]. unfold Prim2SF. rewrite Hn, Hi.
  destruct (is_zero f); [left; eauto|].
  destruct (Z.frexp f) as [r ex].
  destruct (shr_fexp prec emax _ _ _) as [shr e'].
  destruct (shr_m shr); [left|right|left]; eauto.
Qed.

Lemma float_sub_diag (f : float) :
  is_finite f = true -> (f - f)%float = 0%float.
Proof.
  intros H. rewrite <- (SF2Prim_Prim2SF (f - f)), sub_spec.
  destruct (Prim2SF_finite_cases f H) as [(s & ->)|(s & m & e & ->)].
  - now destruct s.
  - unfold SF64sub, SFsub. cbv zeta. rewrite Z.sub_diag. reflexivity.
Qed.

Lemma Prim2SF_nonzero (f : float) :
  is_finite f = true -> (f =? 0)%float = false ->
  exists s m e, Prim2SF f = S754_finite s m e.
Proof.
  intros H Hz. destruct (Prim2SF_finite_cases f H) as [(s & Hs)|H']; [|exact H'].
  rewrite eqb_spec, Hs in Hz. now destruct s.
Qed.

(** Zero over a finite divisor, times 100, compares equal to zero. *)
Lemma float_zero_percent (f : float) :
  is_finite f = true -> (f =? 0)%float = false ->
  ((0 / f) * Z2float 100 =? 0)%float = true.
Proof.
  intros H Hz. destruct (Prim2SF_nonzero f H Hz) as (s & m & e & Hf).
  rewrite eqb_spec, mul_spec, div_spec, Hf.
  assert (H0 : Prim2SF 0 = S754_zero false) by (vm_compute; reflexivity).
  rewrite H0. cbn [SF64div SFdiv].
  assert (Hh : exists m' e', Prim2SF (Z2float 100) = S754_finite false m' e').
  { vm_compute. eauto. }
  destruct Hh as (m' & e' & ->). cbn. now destruct s.
Qed.

(** What is not finite is the NaN or an infinity. *)
Lemma float_not_finite (f : float) :
  is_finite f = false -> f = nan \/ f = infinity \/ f = neg_infinity.
Proof.
  unfold is_finite. intros H. apply negb_false_iff in H.
  assert (Hc : Prim2SF f = S754_nan \/ (exists s, Prim2SF f = S754_zero s) \/
               exists s, Prim2SF f = S754_infinity s).
  { unfold Prim2SF. apply orb_true_iff in H. destruct H as [H|H].
    - rewrite H. now left.
    - destruct (is_nan f); [now left|].
      destruct (is_zero f); [right; left; eauto|].
      rewrite H. right; right; eauto. }
  destruct Hc as [Hc|[(s & Hc)|(s & Hc)]];
    rewrite <- (SF2Prim_Prim2SF f), Hc in H |- *.
  - now left.
  - destruct s; vm_compute in H; discriminate.
  - right. destruct s; [right|left]; reflexivity.
Qed.

(** X16. A quarter compared with itself.  Every row has its new value
    equal to its old one.  Where that value is the int 0 or a finite
    float, the difference is zero and so is the percent change; where it
    is the NaN of an empty cell, or an infinity, both are NaN, not
    zero. *)
Theorem compute_deltas_same_quarter (rt : PyRuntime) (data : dataset) (q : string)
  (row : delta_row) :
  In row (snd (compute_deltas_between rt data q q)) ->
  New_Value row = Old_Value row /\
  match Old_Value row with
  | PyInt n =>
      n = 0 /\ Difference row = PyInt 0 /\ Percent_Change row = PyInt 0
  | PyFloat f =>
      (is_finite f = true ->
       Difference row = PyFloat 0 /\ py_ne0 (Percent_Change row) = false) /\
      (is_finite f = false ->
       Difference row = PyFloat nan /\ Percent_Change row = PyFloat nan)
  end.
Proof.
  intros Hin. apply In_compute_deltas in Hin.
  destruct Hin as (r1 & r2 & d1 & d2 & o & n & H1 & H2 & _ & Hd1 & Hd2 & _ & Ho & Hn & ->).
  rewrite H1 in H2. injection H2 as <-.
  rewrite Hd1 in Hd2. injection Hd2 as <-.
  rewrite Ho in Hn. injection Hn as <-.
  cbn [New_Value Old_Value Difference Percent_Change].
  split; [reflexivity|].
  destruct (coerce_cases rt d1 _ o Ho) as [->|(f & ->)].
  - repeat split.
  - split.
    + intros Hf. unfold py_sub, as_float. rewrite (float_sub_diag f Hf).
      split; [reflexivity|].
      unfold guarded_percent.
      change (py_ne0 (PyFloat f)) with (negb (PrimFloat.eqb f 0)).
      destruct (PrimFloat.eqb f 0) eqn:Hz; [reflexivity|].
      cbn [negb py_div py_mul as_float py_ne0].
      now rewrite (float_zero_percent f Hf Hz).
    + intros Hf.
      destruct (float_not_finite f Hf) as [->|[->| ->]]; vm_compute; split; reflexivity.
Qed.

Lemma compute_deltas_same_quarter_witness :
  In (mkDelta (VStr "Dock") "Headcount" (PyFloat 5) (PyFloat 5) (PyFloat 0) (PyFloat 0))
     (snd (compute_deltas_between demo_runtime zero_to_five "Q1" "Q1")) /\
  New_Value (mkDelta (VStr "Dock") "Headcount" (PyFloat 5) (PyFloat 5) (PyFloat 0) (PyFloat 0)) =
  Old_Value (mkDelta (VStr "Dock") "Headcount" (PyFloat 5) (PyFloat 5) (PyFloat 0) (PyFloat 0)).
Proof.
  split; [left; vm_compute; reflexivity|].
  refine (proj1 (compute_deltas_same_quarter demo_runtime zero_to_five "Q1" _ _)).
  left. vm_compute. reflexivity.
Defined.

(** An empty cell read back as NaN: the quarter differs from itself by
    NaN. *)
Example delta_of_empty_cell :
  snd (compute_deltas_between demo_runtime
         [("Q1", [(VStr "Dock", [("Piles", VNaN)])])] "Q1" "Q1") =
  [mkDelta (VStr "Dock") "Piles" (PyFloat nan) (PyFloat nan) (PyFloat nan) (PyFloat nan)].
Proof. vm_compute. reflexivity. Qed.

(** X17. Which pairs the table has.  For a role stored in both
    quarters, the table has a row for a metric exactly when the metric
    is a field of the role's record in the first quarter and both values
    convert; so a field only the second quarter has is never compared,
    and a field whose text [float] rejects is left out without a
    message. *)
Theorem compute_deltas_metrics (rt : PyRuntime) (data : dataset) (q1 q2 : string)
  (roles1 roles2 : dict value record) (role : value) (data1 data2 : record)
  (key : string) :
  set_iter_ok rt ->
  dict_get q1 data = Some roles1 ->
  dict_get q2 data = Some roles2 ->
  dict_get role roles1 = Some data1 ->
  dict_get role roles2 = Some data2 ->
  ((exists row, In row (snd (compute_deltas_between rt data q1 q2)) /\
                Role row = role /\ Metric row = key) <->
   In key (dict_keys data1) /\
   coerce rt data1 key <> None /\ coerce rt data2 key <> None).
Proof.
  intros Hok H1 H2 Hd1 Hd2. split.
  - intros (row & Hin & <- & <-). apply In_compute_deltas in Hin.
    destruct Hin as (r1 & r2 & d1 & d2 & o & n & H1' & H2' & _ & Hd1' & Hd2' & Hk & Ho & Hn & _).
    rewrite H1 in H1'. injection H1' as <-.
    rewrite H2 in H2'. injection H2' as <-.
    rewrite Hd1 in Hd1'. injection Hd1' as <-.
    rewrite Hd2 in Hd2'. injection Hd2' as <-.
    rewrite Ho, Hn. repeat split; [assumption|discriminate|discriminate].
  - intros (Hk & Ho & Hn).
    destruct (coerce rt data1 key) as [o|] eqn:Eo; [|congruence].
    destruct (coerce rt data2 key) as [n|] eqn:En; [|congruence].
    exists (mkDelta role key o n (py_sub n o) (guarded_percent o (py_sub n o))).
    split; [|split; reflexivity].
    rewrite (compute_deltas_rows rt data q1 q2 roles1 roles2 H1 H2).
    rewrite in_flat_map. exists role. split.
    + apply In_common_roles; [assumption|]. split.
      * unfold dict_keys. apply (in_map fst roles1 (role, data1)).
        now apply dict_get_In.
      * unfold dict_mem. now rewrite Hd2.
    + apply In_role_deltas. exists data1, data2, key.
      repeat split; try assumption.
      apply In_delta_of. now exists o, n.
Qed.

Lemma compute_deltas_metrics_witness :
  set_iter_ok demo_runtime /\
  (exists row,
     In row (snd (compute_deltas_between demo_runtime sos_two_roles "SoS" "SoS")) /\
     Role row = VStr "Dock" /\ Metric row = "Headcount") /\
  ~ (exists row,
       In row (snd (compute_deltas_between demo_runtime sos_two_roles "SoS" "SoS")) /\
       Role row = VStr "Dock" /\ Metric row = "Role").
Proof.
  split; [exact set_iter_ok_demo|]. split.
  - apply (proj2 (compute_deltas_metrics demo_runtime sos_two_roles "SoS" "SoS"
                    _ _ (VStr "Dock") _ _ "Headcount"
                    set_iter_ok_demo eq_refl eq_refl eq_refl eq_refl)).
    split; [right; left; reflexivity|].
    split; vm_compute; discriminate.
  - intros H.
    apply (proj1 (compute_deltas_metrics demo_runtime sos_two_roles "SoS" "SoS"
                    _ _ (VStr "Dock") _ _ "Role"
                    set_iter_ok_demo eq_refl eq_refl eq_refl eq_refl)) in H.
    destruct H as (_ & H & _). apply H. vm_compute. reflexivity.
Defined.

(** ** Text and numbers *)

Lemma rstrip_cons (c : ascii) (t : string) :
  rstrip (String c t) =
  match rstrip t with
  | EmptyString => if is_space c then EmptyString else String c EmptyString
  | u => String c u
  end.
Proof. reflexivity. Qed.

Lemma rstrip_rstrip (s : string) : rstrip (rstrip s) = rstrip s.
Proof.
  induction s as [|c t IH]; [reflexivity|].
  rewrite rstrip_cons. destruct (rstrip t) as [|d u] eqn:Ht.
  - destruct (is_space c) eqn:Hc; [reflexivity|].
    rewrite rstrip_cons. cbn [rstrip]. now rewrite Hc.
  - rewrite rstrip_cons, IH. reflexivity.
Qed.

Lemma starts_clean_lstrip (s : string) : starts_clean (lstrip s).
Proof.
  induction s as [|c t IH]; simpl; [exact I|].
  destruct (is_space c) eqn:Hc; [exact IH|exact Hc].
Qed.

Lemma starts_clean_rstrip (s : string) : starts_clean s -> starts_clean (rstrip s).
Proof.
  destruct s as [|c t]; [trivial|]. intros Hc. rewrite rstrip_cons.
  simpl in Hc. rewrite Hc. now destruct (rstrip t).
Qed.

Lemma lstrip_clean (s : string) : starts_clean s -> lstrip s = s.
Proof. destruct s as [|c t]; simpl; [trivial|]. now intros ->. Qed.

Lemma strip_strip (s : string) : strip (strip s) = strip s.
Proof.
  unfold strip.
  rewrite (lstrip_clean (rstrip (lstrip s))).
  - apply rstrip_rstrip.
  - apply starts_clean_rstrip, starts_clean_lstrip.
Qed.

Lemma is_digit_not_space (c : ascii) : is_digit c = true -> is_space c = false.
Proof.
  unfold is_digit, is_space. cbv zeta.
  rewrite andb_true_iff, !N.leb_le. intros [H1 H2].
  apply orb_false_iff. split; apply andb_false_iff.
  - right. apply N.leb_gt. lia.
  - right. apply N.leb_gt. lia.
Qed.

Lemma strip_digits (s : string) : all_digits s = true -> strip s = s.
Proof.
  intros H. unfold strip.
  assert (Hl : lstrip s = s).
  { destruct s as [|c t]; [reflexivity|]. simpl in *.
    apply andb_true_iff in H. now rewrite (is_digit_not_space c (proj1 H)). }
  rewrite Hl. clear Hl.
  induction s as [|c t IH]; [reflexivity|].
  simpl in H. apply andb_true_iff in H. destruct H as [Hc Ht].
  rewrite rstrip_cons, (IH Ht), (is_digit_not_space c Hc). now destruct t.
Qed.

Lemma isdigit_all_digits (s : string) : isdigit s = true -> all_digits s = true.
Proof. destruct s; [discriminate|trivial]. Qed.

(** [int] on a text of digits. *)
Lemma py_int_digits (s : string) :
  isdigit s = true -> py_int s = Some (digits_value 0 s).
Proof.
  intros H. unfold py_int. rewrite (strip_digits s (isdigit_all_digits s H)).
  destruct s as [|c t]; [discriminate|].
  pose proof H as H0.
  destruct c as [[] [] [] [] [] [] [] []]; simpl in H; try discriminate H;
    cbv beta iota; now rewrite H0.
Qed.

Lemma digits_value_nonneg (s : string) (acc : Z) :
  all_digits s = true -> 0 <= acc -> 0 <= digits_value acc s.
Proof.
  revert acc. induction s as [|c t IH]; intros acc H Hacc; [exact Hacc|].
  simpl in H. apply andb_true_iff in H. destruct H as [Hc Ht].
  cbn [digits_value]. apply IH; [exact Ht|].
  unfold is_digit in Hc. cbv zeta in Hc.
  apply andb_true_iff in Hc. rewrite !N.leb_le in Hc. lia.
Qed.

Lemma all_digits_string_of_uint (d : Decimal.uint) :
  all_digits (NilEmpty.string_of_uint d) = true.
Proof. induction d; simpl; auto. Qed.

Lemma digits_value_uint_acc (d : Decimal.uint) (acc : positive) :
  digits_value (Z.pos acc) (NilEmpty.string_of_uint d) = Z.pos (Pos.of_uint_acc d acc).
Proof.
  revert acc. induction d; intros acc; cbn [NilEmpty.string_of_uint digits_value Pos.of_uint_acc];
    [reflexivity|..];
    match goal with
    | |- digits_value ?a _ = Z.pos (Pos.of_uint_acc _ ?b) =>
        replace a with (Z.pos b); [apply IHd|]
    end;
    match goal with
    | |- context [Z.of_N (N_of_ascii ?c)] =>
        let v := eval vm_compute in (Z.of_N (N_of_ascii c)) in
        change (Z.of_N (N_of_ascii c)) with v
    end; lia.
Qed.

Lemma digits_value_uint (d : Decimal.uint) :
  digits_value 0 (NilEmpty.string_of_uint d) = Z.of_N (Pos.of_uint d).
Proof.
  induction d; cbn [NilEmpty.string_of_uint digits_value Pos.of_uint];
    [reflexivity|exact IHd|..];
    match goal with
    | |- digits_value ?a _ = Z.of_N (N.pos (Pos.of_uint_acc _ ?b)) =>
        change a with (Z.pos b); apply digits_value_uint_acc
    end.
Qed.

(** [int(str(n))] is [n], for a count. *)
Lemma py_int_str_of_int (n : Z) : 0 <= n -> py_int (str_of_int n) = Some n.
Proof.
  intros Hn. destruct n as [|p|p]; [reflexivity| |lia].
  unfold str_of_int. cbn [Z.to_int NilZero.string_of_int].
  unfold NilZero.string_of_uint.
  pose proof (Unsigned.to_uint_nonnil p) as Hnil.
  assert (Hs : NilZero.string_of_uint (Pos.to_uint p) = NilEmpty.string_of_uint (Pos.to_uint p)).
  { unfold NilZero.string_of_uint. destruct (Pos.to_uint p); congruence. }
  fold (NilZero.string_of_uint (Pos.to_uint p)). rewrite Hs.
  rewrite py_int_digits.
  - now rewrite digits_value_uint, Unsigned.of_to.
  - pose proof (all_digits_string_of_uint (Pos.to_uint p)) as Hd.
    unfold isdigit. destruct (Pos.to_uint p); [congruence|exact Hd..].
Qed.

(** ** The totals of a batch *)

Lemma int_or_zero_entry_value (t : string) :
  int_or_zero (entry_value t) = add_if_digits 0 t.
Proof.
  unfold entry_value, add_if_digits, validate_numeric. cbv zeta.
  rewrite strip_strip.
  destruct (isdigit (strip t)) eqn:Hd.
  - rewrite (py_int_digits _ Hd). destruct (strip t); [discriminate|]. reflexivity.
  - rewrite orb_false_r. now destruct (String.eqb (strip t) "").
Qed.

Lemma add_if_digits_entry (a : Z) (t : string) :
  add_if_digits a t = a + int_or_zero (entry_value t).
Proof.
  rewrite int_or_zero_entry_value. unfold add_if_digits. cbv zeta.
  destruct (isdigit (strip t)); lia.
Qed.

Lemma entry_value_nonneg (t : string) : 0 <= int_or_zero (entry_value t).
Proof.
  rewrite int_or_zero_entry_value. unfold add_if_digits. cbv zeta.
  destruct (isdigit (strip t)) eqn:Hd; [|lia].
  pose proof (digits_value_nonneg (strip t) 0 (isdigit_all_digits _ Hd)). lia.
Qed.

Lemma sum_if_digits {X : Type} (g : X -> string) (l : list X) :
  fold_right Z.add 0
    (map (fun x => digits_value 0 (strip (g x)))
       (filter (fun x => isdigit (strip (g x))) l)) =
  fold_right Z.add 0 (map (fun x => int_or_zero (entry_value (g x))) l).
Proof.
  induction l as [|x l IH]; [reflexivity|].
  cbn [filter map fold_right]. rewrite int_or_zero_entry_value.
  unfold add_if_digits. cbv zeta.
  destruct (isdigit (strip (g x))); cbn [map fold_right]; rewrite IH; lia.
Qed.

Lemma fold_add_if_digits {X : Type} (g : X -> string) (l : list X) (a : Z) :
  fold_left (fun total x => add_if_digits total (g x)) l a =
  a + fold_right Z.add 0 (map (fun x => int_or_zero (entry_value (g x))) l).
Proof.
  revert a. induction l as [|x l IH]; intros a; cbn [fold_left map fold_right]; [lia|].
  rewrite IH, int_or_zero_entry_value. unfold add_if_digits. cbv zeta.
  destruct (isdigit (strip (g x))); lia.
Qed.

Lemma sum_entries_nonneg {X : Type} (g : X -> string) (l : list X) :
  0 <= fold_right Z.add 0 (map (fun x => int_or_zero (entry_value (g x))) l).
Proof.
  induction l as [|x l IH]; cbn [map fold_right]; [lia|].
  pose proof (entry_value_nonneg (g x)). lia.
Qed.

Lemma total_value_str_of_int (n : Z) : 0 <= n -> total_value (str_of_int n) = VInt n.
Proof. intros Hn. unfold total_value. now rewrite (py_int_str_of_int n Hn). Qed.

Lemma update_rsp_total_sum (form : Form) :
  update_rsp_total form =
  str_of_int (sum_of "Piles" (floor_records (collect_data form))).
Proof.
  unfold update_rsp_total. rewrite fold_add_if_digits. reflexivity.
Qed.

(** X18. The total of Piles.  The record of the role RSP (Total) in a
    batch holds, as Piles, the sum of the Piles of the batch's floor
    records, a field that is blank or no number counting for nothing;
    and that sum is the number [update_rsp_total] shows on the form. *)
Theorem collect_data_total_piles (form : Form) (total : record) :
  In total (collect_data form) ->
  cell total "Role" = VStr "RSP (Total)" ->
  cell total "Piles" = VInt (sum_of "Piles" (floor_records (collect_data form))) /\
  update_rsp_total form =
  str_of_int (sum_of "Piles" (floor_records (collect_data form))).
Proof.
  intros Hin Hrole. split; [|apply update_rsp_total_sum].
  revert Hin Hrole.
  unfold collect_data. cbv zeta.
  pose proof (sum_if_digits (fun floor => rsp_entries form floor "Piles") RSP_FLOORS) as Hs.
  cbv beta in Hs. rewrite Hs. clear Hs.
  generalize entry_value as ev. generalize total_value as tv. intros tv ev.
  intros Hin Hrole.
  cbv -[Z.add int_or_zero] in Hin.
  repeat (destruct Hin as [<-|Hin]; [cbv in Hrole; try discriminate Hrole|]);
    [|destruct Hin].
  cbv -[Z.add int_or_zero]. reflexivity.
Qed.

Lemma collect_data_total_piles_witness :
  In [("Quarter", VStr "Q1"); ("Role", VStr "RSP (Total)"); ("Floor", VStr "");
      ("Piles", VInt 7)] (collect_data piles_form) /\
  VInt 7 = VInt (sum_of "Piles" (floor_records (collect_data piles_form))).
Proof.
  assert (Hin : In [("Quarter", VStr "Q1"); ("Role", VStr "RSP (Total)");
                    ("Floor", VStr ""); ("Piles", VInt 7)] (collect_data piles_form)).
  { do 6 right. left. reflexivity. }
  split; [exact Hin|].
  exact (proj1 (collect_data_total_piles piles_form _ Hin eq_refl)).
Defined.

(** X19. The headcount totals.  On a form whose two totals were set by
    [update_headcount_totals], the batch's record RSP (Headcount Total)
    holds the sum of the Headcount of the floor records, and the record
    Non-RSP (Headcount Total) the sum of the Headcount of Dock,
    Damageland and the other roles: the text of a total is read back as
    the number it was written from. *)
Theorem update_headcount_totals_consistent (form : Form) (total : record) :
  In total (collect_data (update_headcount_totals form)) ->
  (cell total "Role" = VStr "RSP (Headcount Total)" ->
   cell total "Headcount" =
   VInt (sum_of "Headcount"
           (floor_records (collect_data (update_headcount_totals form))))) /\
  (cell total "Role" = VStr "Non-RSP (Headcount Total)" ->
   cell total "Headcount" =
   VInt (sum_of "Headcount"
           (non_rsp_records (collect_data (update_headcount_totals form))))).
Proof.
  unfold update_headcount_totals. cbv zeta.
  rewrite !fold_add_if_digits, !add_if_digits_entry.
  unfold collect_data. cbv zeta.
  cbn [selected_quarter rsp_entries dock_entries dmg_entries other_entries
       rsp_headcount_total_var non_rsp_headcount_total_var].
  rewrite !total_value_str_of_int.
  - generalize entry_value as ev. intros ev Hin.
    cbv -[Z.add int_or_zero strip isdigit digits_value] in Hin.
    split; intros Hrole;
      repeat (destruct Hin as [<-|Hin]; [cbv in Hrole; try discriminate Hrole|]);
      try (destruct Hin);
      cbv -[Z.add int_or_zero strip isdigit digits_value]; f_equal; lia.
  - pose proof (entry_value_nonneg (dock_entries form "Headcount")).
    pose proof (entry_value_nonneg (dmg_entries form "Headcount")).
    pose proof (sum_entries_nonneg (other_entries form) OTHER_ROLES). lia.
  - pose proof (sum_entries_nonneg (fun floor => rsp_entries form floor "Headcount") RSP_FLOORS).
    cbv beta in *. lia.
Qed.

Lemma update_headcount_totals_consistent_witness :
  In [("Quarter", VStr "Q1"); ("Role", VStr "RSP (Headcount Total)");
      ("Floor", VStr ""); ("Headcount", VInt 12)]
     (collect_data (update_headcount_totals piles_form)) /\
  VInt 12 =
  VInt (sum_of "Headcount"
          (floor_records (collect_data (update_headcount_totals piles_form)))).
Proof.
  assert (Hin : In [("Quarter", VStr "Q1"); ("Role", VStr "RSP (Headcount Total)");
                    ("Floor", VStr ""); ("Headcount", VInt 12)]
                   (collect_data (update_headcount_totals piles_form))).
  { do 7 right. left. vm_compute. reflexivity. }
  split; [exact Hin|].
  exact (proj1 (update_headcount_totals_consistent piles_form _ Hin) eq_refl).
Defined.

(** ** Column widths *)

Lemma fold_width_le (col : list xcell) (a : Z) :
  a <= fold_left
         (fun max_length c =>
            if xcell_truthy c
            then Z.max max_length (Z.of_nat (String.length (xcell_str c)))
            else max_length) col a.
Proof.
  revert a. induction col as [|c col IH]; intros a; cbn [fold_left]; [lia|].
  eapply Z.le_trans; [|apply IH]. destruct (xcell_truthy c); lia.
Qed.

Lemma fold_width_fits (col : list xcell) (a : Z) (c : xcell) :
  In c col -> xcell_truthy c = true ->
  Z.of_nat (String.length (xcell_str c)) <=
  fold_left
    (fun max_length c =>
       if xcell_truthy c
       then Z.max max_length (Z.of_nat (String.length (xcell_str c)))
       else max_length) col a.
Proof.
  revert a. induction col as [|d col IH]; intros a Hin Hc; [destruct Hin|].
  cbn [fold_left]. destruct Hin as [->|Hin].
  - rewrite Hc. eapply Z.le_trans; [|apply fold_width_le]. lia.
  - now apply IH.
Qed.

(** X20. The width of a column.  The width [adjust_excel_columns]
    sets leaves two characters of room beside every cell that counts as
    true, and is more than the length of every cell that is not empty; a
    zero, which the loop passes over, fits all the same. *)
Theorem column_width_fits (col : list xcell) (c : xcell) :
  In c col ->
  (xcell_truthy c = true ->
   Z.of_nat (String.length (xcell_str c)) + 2 <= column_width col) /\
  (c <> XEmpty -> Z.of_nat (String.length (xcell_str c)) < column_width col).
Proof.
  intros Hin. unfold column_width.
  pose proof (fold_width_fits col 0 c Hin) as Hfit.
  pose proof (fold_width_le col 0) as Hle.
  split; [intros Hc; specialize (Hfit Hc); lia|].
  intros Hne. destruct (xcell_truthy c) eqn:Hc; [specialize (Hfit eq_refl); lia|].
  destruct c as [|n|s]; [congruence| |].
  - simpl in Hc. apply negb_false_iff, Z.eqb_eq in Hc. subst n.
    change (xcell_str (XInt 0)) with "0". simpl. lia.
  - simpl in Hc. apply negb_false_iff, String.eqb_eq in Hc. subst s. simpl. lia.
Qed.

Lemma column_width_fits_witness :
  In (XStr "Headcount") [XStr "Headcount"; XInt 12; XEmpty; XInt 0] /\
  Z.of_nat (String.length (xcell_str (XStr "Headcount"))) + 2 <=
  column_width [XStr "Headcount"; XInt 12; XEmpty; XInt 0].
Proof.
  split; [left; reflexivity|].
  apply (column_width_fits [XStr "Headcount"; XInt 12; XEmpty; XInt 0] (XStr "Headcount"));
    [left; reflexivity|reflexivity].
Defined.

(** ** The trend graph *)

Lemma available_quarters_cases (data : dataset) (qs : list string) :
  (available_quarters data qs = Some [] /\
   forall q, In q qs -> dict_mem q data = false) \/
  (available_quarters data qs = None /\
   exists q, In q qs /\ dict_mem q data = true).
Proof.
  induction qs as [|q qs IH]; [left; split; [reflexivity|intros q []]|].
  cbn [available_quarters]. unfold dict_mem at 1 3.
  destruct (dict_get q data) as [roles|] eqn:Hq.
  - right. split; [reflexivity|]. exists q. split; [now left|].
    unfold dict_mem. now rewrite Hq.
  - destruct IH as [[-> Hno]|[-> (q' & Hin & Hq')]].
    + left. split; [reflexivity|]. intros q' [<-|Hin]; [|now apply Hno].
      unfold dict_mem. now rewrite Hq.
    + right. split; [reflexivity|]. exists q'. split; [now right|assumption].
Qed.

(** X21. [show_graphs] draws nothing.  With no quarter of the shift
    in the dataset it returns without a graph; with any of them stored,
    the test of the first such quarter hands a bool to [any] and the
    function ends in the [TypeError]; it never reaches the plot. *)
Theorem show_graphs_never_plots (data : dataset) :
  (forall ticks y, show_graphs data <> plotted ticks y) /\
  (show_graphs data = nothing_shown <->
   forall q, In q QUARTERS -> dict_mem q data = false) /\
  (show_graphs data = type_error <->
   exists q, In q QUARTERS /\ dict_mem q data = true).
Proof.
  unfold show_graphs.
  destruct (available_quarters_cases data QUARTERS) as [[-> Hno]|[-> Hex]].
  - split; [discriminate|]. split; split; try discriminate; auto.
    intros (q & Hin & Hq). rewrite (Hno q Hin) in Hq. discriminate.
  - split; [discriminate|]. split; split; try discriminate; auto.
    intros Hno. destruct Hex as (q & Hin & Hq). rewrite (Hno q Hin) in Hq. discriminate.
Qed.

(** With a quarter stored the function raises; with none it returns. *)
Example show_graphs_on_datasets :
  show_graphs zero_to_five = type_error /\ show_graphs [] = nothing_shown.
Proof. split; reflexivity. Qed.
